(** * vibe-cart: the cart store, the cart aggregator and the mock checkout

    A shallow embedding of [backend/server.js].  The server keeps three
    globals: the flag [useDb], the SQLite handle [db] and the in-memory
    object [mem]; every route branches on [useDb].  The embedding keeps the
    three of them in one record and turns every route into a function from
    the server state and the request to the new state and the response.

    Modelling choices, all visible in the definitions below:
    - A finite number is the rational it denotes ([Q]); the prices and
      quantities the server holds are such numbers.  [+] and [*] are those
      of IEEE 754 binary64: the exact result rounded to the nearest double,
      ties to even, with overflow to [Infinity]; [NaN] arises from a product
      with [undefined].  A literal too large for a double ([1e999]) and the
      sign of zero are outside the model.  The rounding is compared with
      the doubles of the machine on samples ([rounding_as_the_machine]).
    - A request's [productId] is a string when it is present, as the REST
      contract types it; [qty] is any JSON value.  The guard of the route is
      also given on its own for every JSON value of [productId].
    - The SQL statements of the source are modelled one function each, on
      tables that are lists of rows in rowid order.  The [SELECT] of
      [getCart] reads [cart] through the index that [UNIQUE(userId,
      productId)] creates, as SQLite plans it: the rows of the user in the
      order of their productId.  The constraints of the schema that an
      [INSERT] can violate ([UNIQUE], [FOREIGN KEY]) make it fail; a
      database that fails for another reason (I/O, no rowid left) is outside
      the model.
    - Requests are handled one after the other: a route runs from its
      first statement to its response before the next request starts.  The
      one route that reads and then writes, the durable [POST /api/cart],
      is also given one [await] at a time ([plan_upsert], [run_upsert]), to
      say what a request in between does to it.
    - [Math.random] and [Date] are inputs of the checkout request. *)

From Stdlib Require Import QArith.
From Stdlib Require OrderedTypeEx Qcanon.
From Stdlib Require PrimFloat SpecFloat FloatOps.
From stdpp Require Import gmap strings list fin_maps sorting.

Local Open Scope string_scope.
Local Open Scope Z_scope.
Local Open Scope list_scope.

(** ** JavaScript values *)

(** The numbers the code computes with: [price * qty] and their sum. *)
Inductive number :=
  | Num (q : Q)
  | NaN
  | Infinity (negative : bool).

(** *** Rounding to binary64

    The double nearest to a rational, ties to even: 53 bits of mantissa,
    the smallest unit [2^-1074], overflow from [2^1024] on. *)

(** The [e] with [2^e <= n/d < 2^(e+1)], for [n] and [d] above zero. *)
Definition floor_log2 (n d : Z) : Z :=
  let e := Z.log2 n - Z.log2 d in
  if (if 0 <=? e then d * 2 ^ e <=? n else d <=? n * 2 ^ (- e)) then e else e - 1.

(** The integer nearest to [n/d], the even one at a tie. *)
Definition round_half_even (n d : Z) : Z :=
  let m := n / d in
  match 2 * (n mod d) ?= d with
  | Lt => m
  | Gt => m + 1
  | Eq => if Z.even m then m else m + 1
  end.

(** The double nearest to [n/d], for [n] and [d] above zero: a multiple
    [m * 2^p] of the unit in the last place. *)
Definition round_positive (n d : Z) : number :=
  let p := Z.max (floor_log2 n d - 52) (-1074) in
  if 0 <=? p then
    let m := round_half_even n (d * 2 ^ p) in
    if 2 ^ 1024 <=? m * 2 ^ p then Infinity false else Num (inject_Z (m * 2 ^ p))
  else
    Num (Qred (round_half_even (n * 2 ^ (- p)) d # Z.to_pos (2 ^ (- p)))).

Definition negate (x : number) : number :=
  match x with
  | Num q => Num (- q)
  | NaN => NaN
  | Infinity s => Infinity (negb s)
  end.

Definition round64 (q : Q) : number :=
  match Qnum q with
  | 0 => Num 0
  | Z.pos n => round_positive (Z.pos n) (Z.pos (Qden q))
  | Z.neg n => negate (round_positive (Z.pos n) (Z.pos (Qden q)))
  end.

(** [a + b] on numbers. *)
Definition js_add (a b : number) : number :=
  match a, b with
  | Num x, Num y => round64 (x + y)
  | Infinity s, Infinity t => if Bool.eqb s t then Infinity s else NaN
  | Infinity s, Num _ => Infinity s
  | Num _, Infinity s => Infinity s
  | _, _ => NaN
  end.

(** The sign of [Infinity * x] for a finite [x]; [Infinity * 0] is [NaN]. *)
Definition infinity_times (s : bool) (x : Q) : number :=
  match Qnum x with
  | 0 => NaN
  | Z.pos _ => Infinity s
  | Z.neg _ => Infinity (negb s)
  end.

(** [a * b] on numbers. *)
Definition js_mul (a b : number) : number :=
  match a, b with
  | Num x, Num y => round64 (x * y)
  | Infinity s, Infinity t => Infinity (xorb s t)
  | Infinity s, Num x => infinity_times s x
  | Num x, Infinity s => infinity_times s x
  | _, _ => NaN
  end.

(** [ToNumber] of a property read that may give [undefined]. *)
Definition to_number (v : option Q) : number :=
  match v with
  | Some q => Num q
  | None => NaN
  end.

(** A JSON value as [express.json()] hands it to a route; [JUndefined] is
    a key that is absent from the body. *)
Inductive jsval :=
  | JUndefined
  | JNull
  | JBool (b : bool)
  | JNum (q : Q)
  | JStr (s : string)
  | JObject.

(** [typeof v === 'number'] *)
Definition typeof_number (v : jsval) : bool :=
  match v with
  | JNum _ => true
  | _ => false
  end.

(** [v <= 0], used by the route only behind [typeof v === 'number']. *)
Definition js_le_zero (v : jsval) : bool :=
  match v with
  | JNum q => Qle_bool q 0
  | _ => false
  end.

(** [!productId] for a string that may be absent: [undefined] and the empty
    string are falsy. *)
Definition js_not (productId : option string) : bool :=
  match productId with
  | None => true
  | Some s => bool_decide (s = "")
  end.

(** ** Data model *)

Record product := Product {
  prod_id : string;
  prod_name : string;
  prod_price : Q;
  prod_image : string
}.

(** An entry of [mem.cart]: [{userId, productId, qty}]. *)
Record cart_line := CartLine {
  userId : string;
  productId : string;
  qty : Q
}.

(** A row of the table [cart]: [id INTEGER PRIMARY KEY AUTOINCREMENT],
    [userId], [productId], [qty]. *)
Record cart_row := CartRow {
  row_id : Z;
  row_userId : string;
  row_productId : string;
  row_qty : Q
}.

(** The SQLite database: the two tables, and the largest rowid that
    [AUTOINCREMENT] has handed out for [cart] (table [sqlite_sequence]). *)
Record database := Database {
  db_products : list product;
  db_cart : list cart_row;
  db_cart_seq : Z
}.

(** [const mem = { products: [...], cart: [] }] *)
Record mem_store := MemStore {
  mem_products : list product;
  mem_cart : list cart_line
}.

(** The globals of the server. *)
Record server := Server {
  useDb : bool;
  db : database;
  mem : mem_store
}.

(** An element of [items] in a cart view.  The in-memory branch builds it
    by spreading [map.get(c.productId)], which is [undefined] for an id the
    catalog does not have: then only [qty] is there. *)
Record item := Item {
  item_id : option string;
  item_name : option string;
  item_price : option Q;
  item_image : option string;
  item_qty : Q
}.

Record cart_view := CartView {
  items : list item;
  total : number
}.

Record receipt := Receipt {
  receipt_id : string;
  receipt_total : number;
  receipt_items : list item;
  timestamp : string
}.

Inductive json :=
  | JsonCart (v : cart_view)
  | JsonReceipt (r : receipt)
  | JsonProducts (ps : list product)
  | JsonError (error : string)
  | JsonHealth.

Record response := Response {
  status : Z;
  body : json
}.

(** [res.json(x)] and [res.status(n).json(x)] *)
Definition res_json (x : json) : response := Response 200 x.
Definition res_status_json (n : Z) (x : json) : response := Response n x.

Definition DEMO_USER : string := "demo".

Definition seed : list product :=
  [ Product "p1" "Bluetooth Headphones" (1999 # 1) "🎧";
    Product "p2" "Wireless Mouse" (699 # 1) "🖱️";
    Product "p3" "Mechanical Keyboard" (3499 # 1) "⌨️";
    Product "p4" "USB-C Cable" (299 # 1) "🔌";
    Product "p5" "Portable SSD 500GB" (4999 # 1) "💾";
    Product "p6" "Smartwatch" (5999 # 1) "⌚";
    Product "p7" "Phone Stand" (249 # 1) "📱" ].

(** ** The SQL statements of the source *)

(** The order of an index: the entries by key, bytewise as the [BINARY]
    collation compares text, and those of one key in the order of their
    rowids.  [insert_by] puts [x], which comes before the rows of [l] in
    the table, before the first entry whose key is not below its own. *)
Fixpoint insert_by {A} (key : A → string) (x : A) (l : list A) : list A :=
  match l with
  | [] => [x]
  | y :: l' =>
      if String.leb (key x) (key y) then x :: y :: l'
      else y :: insert_by key x l'
  end.

Fixpoint index_order {A} (key : A → string) (l : list A) : list A :=
  match l with
  | [] => []
  | x :: l' => insert_by key x (index_order key l')
  end.

(** A list in the order of the keys: each entry is at or below the ones
    after it. *)
Definition ordered {A} (key : A → string) (l : list A) : Prop :=
  StronglySorted (λ x y, String.leb (key x) (key y) = true) l.

Module Sql.

(** What [run] resolves to: the database after the statement, or the
    rejection of the promise. *)
Inductive result :=
  | Done (d : database)
  | Rejected.

(** [SELECT id FROM products WHERE id = ?] through [get]: the first row. *)
Definition select_product_id (d : database) (id : string) : option string :=
  head (prod_id <$> filter (λ p, prod_id p = id) (db_products d)).

(** [SELECT * FROM cart WHERE userId = ? AND productId = ?] through [get]:
    the first row. *)
Definition select_cart_line (d : database) (u pid : string) : option cart_row :=
  head (filter (λ c, row_userId c = u ∧ row_productId c = pid) (db_cart d)).

(** [UPDATE cart SET qty = ? WHERE id = ?] *)
Definition update_cart_qty (d : database) (q : Q) (id : Z) : database :=
  Database (db_products d)
    ((λ c, if decide (row_id c = id)
           then CartRow (row_id c) (row_userId c) (row_productId c) q
           else c) <$> db_cart d)
    (db_cart_seq d).

(** The rowid [AUTOINCREMENT] gives to the next row: one more than the
    largest rowid the table has ever held. *)
Definition next_rowid (d : database) : Z :=
  1 + foldr Z.max (db_cart_seq d) (row_id <$> db_cart d).

(** [INSERT INTO cart (userId, productId, qty) VALUES (?,?,?)], rejected
    when [UNIQUE(userId, productId)] or the foreign key on [productId]
    ([PRAGMA foreign_keys = ON]) would be violated. *)
Definition insert_cart (d : database) (u pid : string) (q : Q) : result :=
  if bool_decide (Exists (λ c, row_userId c = u ∧ row_productId c = pid) (db_cart d))
  then Rejected
  else if bool_decide (Exists (λ p, prod_id p = pid) (db_products d))
  then Done (Database (db_products d)
               (db_cart d ++ [CartRow (next_rowid d) u pid q])
               (next_rowid d))
  else Rejected.

(** [DELETE FROM cart WHERE userId = ? AND productId = ?] *)
Definition delete_cart_line (d : database) (u pid : string) : database :=
  Database (db_products d)
    (filter (λ c, ¬ (row_userId c = u ∧ row_productId c = pid)) (db_cart d))
    (db_cart_seq d).

(** [DELETE FROM cart WHERE userId = ?] *)
Definition delete_cart_user (d : database) (u : string) : database :=
  Database (db_products d)
    (filter (λ c, row_userId c ≠ u) (db_cart d))
    (db_cart_seq d).

(** A row of the join: [id, name, price, image, qty]. *)
Record join_row := JoinRow {
  r_id : string;
  r_name : string;
  r_price : Q;
  r_image : string;
  r_qty : Q
}.

(** [SELECT c.productId as id, p.name, p.price, p.image, c.qty
     FROM cart c JOIN products p ON p.id = c.productId
     WHERE c.userId = ?]: the rows of [cart] with that userId in the order
    of the index on [(userId, productId)], each with the product of its
    id. *)
Definition select_cart_join (d : database) (u : string) : list join_row :=
  c ← index_order row_productId (filter (λ c, row_userId c = u) (db_cart d));
  p ← filter (λ p, prod_id p = row_productId c) (db_products d);
  [JoinRow (row_productId c) (prod_name p) (prod_price p) (prod_image p) (row_qty c)].

(** [SELECT id, name, price, image FROM products] *)
Definition select_products (d : database) : list product := db_products d.

End Sql.

(** ** The routes *)

(** [new Map(entries)]: a later entry replaces an earlier one with the same
    key. *)
Definition js_Map (ps : list product) : gmap string product :=
  foldl (λ m p, <[prod_id p := p]> m) ∅ ps.

(** [{ ...p, qty }] where [p] is [map.get(c.productId)]. *)
Definition spread_with_qty (p : option product) (q : Q) : item :=
  Item (prod_id <$> p) (prod_name <$> p) (prod_price <$> p) (prod_image <$> p) q.

(** [items.reduce((sum, it) => sum + it.price * it.qty, 0)] *)
Definition reduce_total (its : list item) : number :=
  foldl (λ sum it, js_add sum (js_mul (to_number (item_price it)) (Num (item_qty it))))
        (Num 0) its.

(** The body of [getCart] up to the response: the joined items and their
    total. *)
Definition cart_view_of (s : server) : cart_view :=
  let items :=
    if useDb s then
      (λ r, Item (Some (Sql.r_id r)) (Some (Sql.r_name r)) (Some (Sql.r_price r))
                 (Some (Sql.r_image r)) (Sql.r_qty r))
        <$> Sql.select_cart_join (db s) DEMO_USER
    else
      let map := js_Map (mem_products (mem s)) in
      (λ c, spread_with_qty (map !! productId c) (qty c))
        <$> filter (λ c, userId c = DEMO_USER) (mem_cart (mem s)) in
  CartView items (reduce_total items).

(** [async function getCart(req, res)] *)
Definition getCart (s : server) : response :=
  res_json (JsonCart (cart_view_of s)).

(** The body of [POST /api/cart]: [{ productId, qty } = req.body || {}]. *)
Record cart_request := CartRequest {
  req_productId : option string;
  req_qty : jsval
}.

Definition set_db (s : server) (d : database) : server :=
  Server (useDb s) d (mem s).

Definition set_mem_cart (s : server) (c : list cart_line) : server :=
  Server (useDb s) (db s) (MemStore (mem_products (mem s)) c).

(** [app.post('/api/cart', ...)] *)
Definition post_cart (s : server) (b : cart_request) : server * response :=
  if js_not (req_productId b) || negb (typeof_number (req_qty b)) || js_le_zero (req_qty b)
  then (s, res_status_json 400 (JsonError "productId and qty>0 required"))
  else
    match req_productId b, req_qty b with
    | Some pid, JNum q =>
        if useDb s then
          match Sql.select_product_id (db s) pid with
          | None => (s, res_status_json 404 (JsonError "Product not found"))
          | Some _ =>
              match Sql.select_cart_line (db s) DEMO_USER pid with
              | Some existing =>
                  let s' := set_db s (Sql.update_cart_qty (db s) q (row_id existing)) in
                  (s', getCart s')
              | None =>
                  match Sql.insert_cart (db s) DEMO_USER pid q with
                  | Sql.Done d => let s' := set_db s d in (s', getCart s')
                  | Sql.Rejected =>
                      (s, res_status_json 500 (JsonError "Failed to update cart"))
                  end
              end
          end
        else
          let s' :=
            match list_find (λ c, userId c = DEMO_USER ∧ productId c = pid)
                            (mem_cart (mem s)) with
            | Some (idx, _) =>
                set_mem_cart s
                  (alter (λ c, CartLine (userId c) (productId c) q) idx (mem_cart (mem s)))
            | None =>
                set_mem_cart s (mem_cart (mem s) ++ [CartLine DEMO_USER pid q])
            end in
          (s', getCart s')
    | _, _ =>
        (* not reached: the guard above has answered these bodies *)
        (s, res_status_json 400 (JsonError "productId and qty>0 required"))
    end.

(** [app.delete('/api/cart/:id', ...)] *)
Definition delete_cart (s : server) (pid : string) : server * response :=
  let s' :=
    if useDb s then set_db s (Sql.delete_cart_line (db s) DEMO_USER pid)
    else set_mem_cart s
           (filter (λ c, ¬ (userId c = DEMO_USER ∧ productId c = pid)) (mem_cart (mem s))) in
  (s', getCart s').

(** [app.post('/api/checkout', ...)]; [rnd] is
    [Math.random().toString(36).slice(2, 8)] and [now] is
    [new Date().toISOString()]. *)
Definition post_checkout (s : server) (rnd now : string) : server * response :=
  let cart :=
    let items :=
      if useDb s then
        (λ r, Item (Some (Sql.r_id r)) (Some (Sql.r_name r)) (Some (Sql.r_price r))
                   (Some (Sql.r_image r)) (Sql.r_qty r))
          <$> Sql.select_cart_join (db s) DEMO_USER
      else
        let map := js_Map (mem_products (mem s)) in
        (λ c, spread_with_qty (map !! productId c) (qty c))
          <$> filter (λ c, userId c = DEMO_USER) (mem_cart (mem s)) in
    let total :=
      foldl (λ sum it, js_add sum (js_mul (to_number (item_price it)) (Num (item_qty it))))
            (Num 0) items in
    CartView items total in
  let receipt := Receipt ("rcpt_" +:+ rnd) (total cart) (items cart) now in
  let s' :=
    if useDb s then set_db s (Sql.delete_cart_user (db s) DEMO_USER)
    else set_mem_cart s (filter (λ c, userId c ≠ DEMO_USER) (mem_cart (mem s))) in
  (s', res_json (JsonReceipt receipt)).

(** [app.get('/api/products', ...)] *)
Definition get_products (s : server) : response :=
  if useDb s then res_json (JsonProducts (Sql.select_products (db s)))
  else res_json (JsonProducts (mem_products (mem s))).

Inductive request :=
  | GET_products
  | POST_cart (b : cart_request)
  | DELETE_cart (id : string)
  | GET_cart
  | POST_checkout (rnd now : string)
  | GET_health.

(** The server handling one request. *)
Definition handle (s : server) (r : request) : server * response :=
  match r with
  | GET_products => (s, get_products s)
  | POST_cart b => post_cart s b
  | DELETE_cart id => delete_cart s id
  | GET_cart => (s, getCart s)
  | POST_checkout rnd now => post_checkout s rnd now
  | GET_health => (s, res_json JsonHealth)
  end.

(** The server handling requests one after the other. *)
Fixpoint serve (s : server) (rs : list request) : server * list response :=
  match rs with
  | [] => (s, [])
  | r :: rs' =>
      let '(s1, out) := handle s r in
      let '(s2, outs) := serve s1 rs' in
      (s2, out :: outs)
  end.

(** The two servers a fresh start can give: [initDb] succeeded on a new
    file (tables created, products seeded), or it failed and [useDb] was
    switched off. *)
Definition mem0 : mem_store := MemStore seed [].
Definition durable_start : server := Server true (Database seed [] 0) mem0.
Definition in_memory_start : server := Server false (Database [] [] 0) mem0.

(** ** What the claims speak about *)

(** The lines of the store the server uses, as [(userId, productId, qty)],
    in the order of the store. *)
Definition line_of_row (c : cart_row) : cart_line :=
  CartLine (row_userId c) (row_productId c) (row_qty c).

Definition lines (s : server) : list cart_line :=
  if useDb s then line_of_row <$> db_cart (db s) else mem_cart (mem s).

(** [get(userId)]: the lines of one user. *)
Definition get (s : server) (u : string) : list cart_line :=
  filter (λ c, userId c = u) (lines s).

(** The catalog the server uses. *)
Definition catalog (s : server) : list product :=
  if useDb s then db_products (db s) else mem_products (mem s).

Definition known_product (s : server) (pid : string) : Prop :=
  pid ∈ prod_id <$> catalog s.

(** At most one line per [(userId, productId)]. *)
Definition line_key (c : cart_line) : string * string := (userId c, productId c).


(** [id INTEGER PRIMARY KEY]: no two rows of [cart] share a rowid. *)
Definition primary_key (s : server) : Prop :=
  NoDup (row_id <$> db_cart (db s)).



(** A JSON value that is a number greater than zero. *)
Definition positive_number (v : jsval) : Prop :=
  ∃ q, v = JNum q ∧ (0 < q)%Q.

(** A JSON value that is a whole number greater than zero. *)
Definition positive_integer (v : jsval) : Prop :=
  ∃ (q : Q) (n : Z), v = JNum q ∧ (q == inject_Z n)%Q ∧ 0 < n.

(** [Σ price_i × qty_i] over the items of a view; it has a value when every
    item has a price. *)
Fixpoint sum_price_qty (its : list item) : option Q :=
  match its with
  | [] => Some 0%Q
  | it :: rest =>
      match item_price it, sum_price_qty rest with
      | Some p, Some t => Some (p * item_qty it + t)%Q
      | _, _ => None
      end
  end.

(** ** Definitions the proofs use *)

#[local] Instance known_product_dec s pid : Decision (known_product s pid).
Proof. unfold known_product. apply _. Defined.

(** [findIndex] followed by the write at the index or the [push], as one
    recursion over the array. *)
Fixpoint upsert_lines (pid : string) (q : Q) (l : list cart_line) : list cart_line :=
  match l with
  | [] => [CartLine DEMO_USER pid q]
  | c :: l' =>
      if decide (userId c = DEMO_USER ∧ productId c = pid)
      then CartLine (userId c) (productId c) q :: l'
      else c :: upsert_lines pid q l'
  end.

(** The row [UPDATE cart SET qty = ? WHERE id = ?] leaves in place of [c]. *)
Definition set_row_qty (q : Q) (id : Z) (c : cart_row) : cart_row :=
  if decide (row_id c = id)
  then CartRow (row_id c) (row_userId c) (row_productId c) q
  else c.

(** The [SELECT] of the existing row followed by the [UPDATE] or the
    [INSERT], when the [INSERT] goes through. *)
Definition db_upsert (d : database) (pid : string) (q : Q) : database :=
  match Sql.select_cart_line d DEMO_USER pid with
  | Some existing => Sql.update_cart_qty d q (row_id existing)
  | None =>
      Database (db_products d)
        (db_cart d ++ [CartRow (Sql.next_rowid d) DEMO_USER pid q])
        (Sql.next_rowid d)
  end.

Definition row_key (c : cart_row) : string * string :=
  (row_userId c, row_productId c).

(** A [POST /api/cart] either leaves the state as it is (answers 400, 404
    or 500) or is an upsert that went through. *)
Inductive post_cart_outcome (s : server) (b : cart_request) : Prop :=
  | post_refused :
      (post_cart s b).1 = s →
      status (post_cart s b).2 ≠ 200 →
      post_cart_outcome s b
  | post_upserted pid q :
      b = CartRequest (Some pid) (JNum q) →
      pid ≠ "" → (0 < q)%Q →
      (useDb s = true → known_product s pid) →
      post_cart_outcome s b.

(** The requests of the examples. *)
Definition p1_once : request := POST_cart (CartRequest (Some "p1") (JNum 1)).
Definition p2_twice : request := POST_cart (CartRequest (Some "p2") (JNum 2)).

Definition zzz_once : request := POST_cart (CartRequest (Some "zzz") (JNum 1)).
Definition p1_one_and_a_half : request :=
  POST_cart (CartRequest (Some "p1") (JNum (3 # 2))).

(** A durable server whose table holds a line of the demo user and a line
    of another user. *)
Definition two_users : server :=
  Server true
    (Database seed [CartRow 1 "demo" "p1" 1; CartRow 2 "alice" "p1" 5] 2)
    mem0.


(** ** Start-up *)

(** [INSERT INTO products (id, name, price, image) VALUES (?,?,?,?)],
    rejected when [id TEXT PRIMARY KEY] would be violated. *)
Definition insert_product (d : database) (p : product) : Sql.result :=
  if bool_decide (Exists (λ p', prod_id p' = prod_id p) (db_products d))
  then Sql.Rejected
  else Sql.Done (Database (db_products d ++ [p]) (db_cart d) (db_cart_seq d)).

(** [for (const p of seed) await run(INSERT ...)]: the first rejection
    ends the loop. *)
Fixpoint insert_products (d : database) (ps : list product) : Sql.result :=
  match ps with
  | [] => Sql.Done d
  | p :: ps' =>
      match insert_product d p with
      | Sql.Done d' => insert_products d' ps'
      | Sql.Rejected => Sql.Rejected
      end
  end.

(** [initDb].  [file] is what [openDb] meets: a file it cannot open
    ([None]) or the database the file holds ([Some d], the empty database
    for a new file).  [CREATE TABLE IF NOT EXISTS] leaves the tables of [d]
    as they are; the products are seeded when [COUNT( * )] is 0; a rejection
    anywhere switches [useDb] off. *)
Definition initDb (file : option database) : server :=
  match file with
  | None => Server false (Database [] [] 0) mem0
  | Some d =>
      if bool_decide (length (db_products d) = 0%nat)
      then match insert_products d seed with
           | Sql.Done d' => Server true d' mem0
           | Sql.Rejected => Server false d mem0
           end
      else Server true d mem0
  end.

(** ** The client ([frontend/src/App.jsx])

    The state of [useCart] and of [App] that the handlers read and write,
    and the handlers as transitions of the server and the client together,
    one user action after the other.  Strings and numbers go through
    [JSON.stringify] and [express.json()] unchanged (a total that is [NaN]
    or [Infinity] reaches the client as [null]; it is kept as it is here);
    a productId put into the path of [DELETE /api/cart/${productId}] is
    taken to be one the URL leaves as it is. *)

Record client := Client {
  client_cart : cart_view;
  client_receipt : option receipt;
  client_showReceipt : bool
}.

(** [useState({ items: [], total: 0 })], [useState(null)],
    [useState(false)] *)
Definition client_start : client := Client (CartView [] (Num 0)) None false.

(** [r.ok] *)
Definition ok (r : response) : bool :=
  (200 <=? status r) && (status r <=? 299).

(** [setState(await api.getCart())] and its like: [if (!r.ok) throw],
    else the body becomes the cart.  The routes these calls reach answer
    200 with a cart only. *)
Definition set_cart (c : client) (r : response) : client :=
  if ok r then
    match body r with
    | JsonCart v => Client v (client_receipt c) (client_showReceipt c)
    | _ => c
    end
  else c.

(** [cart.items.find(i => i.id === id)?.qty || 0] *)
Definition shown_qty (c : client) (id : string) : Q :=
  match list_find (λ i, item_id i = Some id) (items (client_cart c)) with
  | Some (_, i) => if Qeq_bool (item_qty i) 0 then 0%Q else item_qty i
  | None => 0%Q
  end.

(** [Math.max(1, Number(e.target.value || 1))] for the value of a number
    input: the empty string ([None]) or the text of a number. *)
Definition clamp_qty (value : option Q) : Q :=
  let n := match value with None => 1%Q | Some v => v end in
  if Qle_bool 1 n then n else 1%Q.

(** [JSON.stringify] of a number and [express.json()] on it: a finite
    number as it is, [NaN] and [Infinity] as [null]. *)
Definition JSON_number (x : number) : jsval :=
  match x with
  | Num q => JNum q
  | _ => JNull
  end.

(** [`/api/cart/${productId}`] for an id that may be [undefined]. *)
Definition path_id (id : option string) : string :=
  match id with
  | Some s => s
  | None => "undefined"
  end.

Inductive action :=
  | Refresh
  | Add (id : string)
  | UpdateQty (id : option string) (qty : Q)
  | Remove (id : option string)
  | Checkout (rnd now : string).

(** [refresh], [add], [updateQty], [remove] and [onCheckout]. *)
Definition act (s : server) (c : client) (a : action) : server * client :=
  match a with
  | Refresh =>
      let '(s', r) := handle s GET_cart in (s', set_cart c r)
  | Add id =>
      let '(s', r) :=
        handle s (POST_cart (CartRequest (Some id)
                               (JSON_number (js_add (Num 1) (Num (shown_qty c id)))))) in
      (s', set_cart c r)
  | UpdateQty id qty =>
      let '(s', r) := handle s (POST_cart (CartRequest id (JNum qty))) in
      (s', set_cart c r)
  | Remove id =>
      let '(s', r) := handle s (DELETE_cart (path_id id)) in (s', set_cart c r)
  | Checkout rnd now =>
      let '(s', r) := handle s (POST_checkout rnd now) in
      (s',
       if ok r then
         match body r with
         | JsonReceipt rc => Client (client_cart c) (Some rc) true
         | _ => c
         end
       else c)
  end.

(** ** Invariants of the stores *)

(** [FOREIGN KEY(productId) REFERENCES products(id)] *)
Definition foreign_key (s : server) : Prop :=
  Forall (λ c, row_productId c ∈ prod_id <$> db_products (db s)) (db_cart (db s)).

(** No rowid of [cart] is above the counter of [AUTOINCREMENT]. *)
Definition rowids_bounded (s : server) : Prop :=
  Forall (λ c, row_id c ≤ db_cart_seq (db s)) (db_cart (db s)).

(** Every line has a qty above zero. *)
Definition quantities_positive (s : server) : Prop :=
  Forall (λ c, (0 < qty c)%Q) (lines s).




(** The client shows the view of the server. *)
Definition in_sync (s : server) (c : client) : Prop :=
  client_cart c = cart_view_of s.

(** The client showing the view of [two_users]. *)
Definition two_users_client : client :=
  Client (cart_view_of two_users) None false.


(** A durable server whose table holds a row of a product the catalog does
    not have, before a row of one it has. *)
Definition orphan_row : server :=
  Server true
    (Database seed [CartRow 1 "demo" "zzz" 1; CartRow 2 "demo" "p1" 1] 2)
    mem0.

(** ** The view and the store *)


(** An item whose price and qty are whole numbers, none below zero. *)
Definition whole_item (it : item) : Prop :=
  ∃ p k : Z, 0 ≤ p ∧ 0 ≤ k ∧
    item_price it = Some (inject_Z p) ∧ item_qty it = inject_Z k.

(** The doubles that the JSON texts [0.1] and [0.7] denote. *)
Definition double_0_1 : Q := 3602879701896397 # 36028797018963968.
Definition double_0_7 : Q := 3152519739159347 # 4503599627370496.



(** ** Hardware doubles

    Rocq's primitive floats are the binary64 numbers of the machine with
    the operations of IEEE 754, which are those of a JavaScript engine.
    [value_of] is the number a float denotes; [samples] are pairs of
    doubles on which the sums and products of the machine are compared
    with [js_add] and [js_mul]. *)
Module Hardware.
Import PrimFloat.

Definition value_of (f : float) : number :=
  match FloatOps.Prim2SF f with
  | SpecFloat.S754_zero _ => Num 0
  | SpecFloat.S754_infinity s => Infinity s
  | SpecFloat.S754_nan => NaN
  | SpecFloat.S754_finite s m e =>
      let v := if 0 <=? e then inject_Z (Z.pos m * 2 ^ e)
               else Qred (Z.pos m # Z.to_pos (2 ^ (- e))) in
      Num (if s then Qopp v else v)
  end.

Definition agrees (ab : float * float) : Prop :=
  value_of (ab.1 + ab.2)%float = js_add (value_of ab.1) (value_of ab.2) ∧
  value_of (ab.1 * ab.2)%float = js_mul (value_of ab.1) (value_of ab.2).

(** [0.1] and [0.7] as the JSON parser reads them. *)
Definition tenth : float := (1 / 10)%float.
Definition seven_tenths : float := (7 / 10)%float.

Definition samples : list (float * float) :=
  [ (1999, tenth); (699, seven_tenths);
    (1999 * tenth, 699 * seven_tenths);
    (0, 1999 * tenth);
    (tenth, 2 / 10); (tenth, seven_tenths); (1 / 3, 1 / 3);
    (- tenth, seven_tenths); (- tenth, tenth); (- tenth, - seven_tenths);
    (1999, 9007199254740994);
    (1, 9007199254740992); (3, 9007199254740992); (1, 9007199254740991);
    (5, 9007199254740992); (- 1, 9007199254740992);
    (1999, 1); (1999, 2); (699, 2); (1999, 1398); (0, 0); (0, 1999);
    (1999, 0x1p1023); (0x1.fffffffffffffp1023, 0x1p970);
    (0x1.fffffffffffffp1023, 0x1.fffffffffffffp969);
    (0x1.fffffffffffffp1023, 0x1.fffffffffffffp1023);
    (- 0x1.fffffffffffffp1023, 0x1.fffffffffffffp1023);
    (0x1p-1074, 0x1p-1); (0x1p-1074, 0x1.8p0); (0x1p-1074, 0x1p-1074);
    (0x1p-1022, 0x1.fffffffffffffp-1); (0x1.8p-1070, 0x1.4p-3);
    (0x1p-1074, 1); (0x1.0000000000001p0, 0x1.0000000000001p0);
    (infinity, 1); (infinity, 0); (infinity, - 1); (infinity, neg_infinity);
    (infinity, infinity); (neg_infinity, neg_infinity); (nan, 1);
    (1, nan); (nan, infinity) ]%float.

End Hardware.

(** ** The guard of [POST /api/cart] on any body *)

(** [!v] for a JSON value: [undefined], [null], [false], [0] and the empty
    string are falsy. *)
Definition js_falsy (v : jsval) : bool :=
  match v with
  | JUndefined | JNull => true
  | JBool b => negb b
  | JNum q => Qeq_bool q 0
  | JStr s => bool_decide (s = "")
  | JObject => false
  end.

(** [!productId || typeof qty !== 'number' || qty <= 0] *)
Definition guard (productId qty : jsval) : bool :=
  js_falsy productId || negb (typeof_number qty) || js_le_zero qty.

(** The [productId] of a body as a JSON value. *)
Definition json_of_id (id : option string) : jsval :=
  match id with
  | Some s => JStr s
  | None => JUndefined
  end.

(** ** The statements of the durable upsert, one [await] at a time

    The durable branch of [POST /api/cart] awaits its two [SELECT]s and
    then the [UPDATE] or the [INSERT]; the statements of another request
    can run between them.  [plan_upsert] is what the route has decided
    when the [SELECT]s have resolved, [run_upsert] is the statement and the
    response that follow, on the database as it is by then. *)
Inductive upsert_plan :=
  | NoProduct
  | UpdateRow (id : Z)
  | InsertRow.

Definition plan_upsert (d : database) (pid : string) : upsert_plan :=
  match Sql.select_product_id d pid with
  | None => NoProduct
  | Some _ =>
      match Sql.select_cart_line d DEMO_USER pid with
      | Some existing => UpdateRow (row_id existing)
      | None => InsertRow
      end
  end.

Definition run_upsert (s : server) (plan : upsert_plan) (pid : string) (q : Q)
  : server * response :=
  match plan with
  | NoProduct => (s, res_status_json 404 (JsonError "Product not found"))
  | UpdateRow id =>
      let s' := set_db s (Sql.update_cart_qty (db s) q id) in (s', getCart s')
  | InsertRow =>
      match Sql.insert_cart (db s) DEMO_USER pid q with
      | Sql.Done d => let s' := set_db s d in (s', getCart s')
      | Sql.Rejected => (s, res_status_json 500 (JsonError "Failed to update cart"))
      end
  end.

(** ** Responses that differ in the order of the items only *)





(** ** Basic facts *)

Lemma set_db_same s : set_db s (db s) = s.
Proof. by destruct s. Qed.

Lemma set_mem_cart_same s : set_mem_cart s (mem_cart (mem s)) = s.
Proof. by destruct s as [? ? []]. Qed.

Lemma filter_all {A} (P : A → Prop) `{∀ x, Decision (P x)} (l : list A) :
  Forall P l → filter P l = l.
Proof.
  induction 1 as [|x l Hx _ IH]; [done|].
  by rewrite filter_cons_True, IH.
Qed.

Lemma filter_none {A} (P : A → Prop) `{∀ x, Decision (P x)} (l : list A) :
  Forall (λ x, ¬ P x) l → filter P l = [].
Proof.
  induction 1 as [|x l Hx _ IH]; [done|].
  by rewrite filter_cons_False.
Qed.

Lemma filter_fmap_comm {A B} (f : A → B) (P : B → Prop) `{∀ y, Decision (P y)}
    (l : list A) :
  filter P (f <$> l) = f <$> filter (P ∘ f) l.
Proof.
  induction l as [|x l IH]; [done|].
  rewrite fmap_cons, !filter_cons. simpl.
  destruct (decide (P (f x))); by rewrite IH.
Qed.

Lemma Forall_filter_keep {A} (P Q : A → Prop) `{∀ x, Decision (Q x)} (l : list A) :
  Forall P l → Forall P (filter Q l).
Proof.
  rewrite !Forall_forall. intros HP x [_ Hx]%list_elem_of_filter. auto.
Qed.

Lemma Forall_line_of_row (P : cart_line → Prop) (rows : list cart_row) :
  Forall P (line_of_row <$> rows) ↔ Forall (λ c, P (line_of_row c)) rows.
Proof. apply Forall_fmap. Qed.

(** The checkout route repeats the body of [getCart]: both compute the same
    view. *)
Lemma post_checkout_view s rnd now :
  (post_checkout s rnd now).2 =
    res_json (JsonReceipt (Receipt ("rcpt_" +:+ rnd) (total (cart_view_of s))
                                   (items (cart_view_of s)) now)).
Proof. reflexivity. Qed.

(** [getCart] neither fails nor writes in the model: its response is the
    view of the state it is called on. *)
Lemma handle_GET_cart s :
  handle s GET_cart = (s, res_json (JsonCart (cart_view_of s))).
Proof. reflexivity. Qed.

(** ** The rounding, checked against the machine *)

(** On every pair of [Hardware.samples], the sum and the product of the
    machine are those of [js_add] and [js_mul]; among the pairs are the
    numbers of the examples of this file, ties, subnormal numbers and
    overflows. *)
Lemma rounding_as_the_machine : Forall Hardware.agrees Hardware.samples.
Proof.
  unfold Hardware.samples.
  repeat (apply Forall_cons_2; [split; vm_compute; reflexivity|]).
  apply Forall_nil_2.
Qed.

Lemma doubles_of_0_1_and_0_7_on_the_machine :
  Hardware.value_of Hardware.tenth = Num double_0_1 ∧
  Hardware.value_of Hardware.seven_tenths = Num double_0_7.
Proof. split; vm_compute; reflexivity. Qed.

(** ** The order of an index *)

Lemma string_leb_refl (a : string) : String.leb a a = true.
Proof.
  unfold String.leb.
  assert (String.compare a a = Eq) as ->; [|done].
  by apply OrderedTypeEx.String_as_OT.cmp_eq.
Qed.

Lemma string_leb_lt_or_eq (a b : string) :
  String.leb a b = true ↔ OrderedTypeEx.String_as_OT.lt a b ∨ a = b.
Proof.
  unfold String.leb. split.
  - destruct (String.compare a b) eqn:E; [|left|done].
    + right. by apply String.compare_eq_iff.
    + by apply OrderedTypeEx.String_as_OT.cmp_lt.
  - intros [Hlt| ->].
    + apply OrderedTypeEx.String_as_OT.cmp_lt in Hlt.
      unfold OrderedTypeEx.String_as_OT.cmp in Hlt. by rewrite Hlt.
    + apply string_leb_refl.
Qed.

Lemma string_leb_trans (a b c : string) :
  String.leb a b = true → String.leb b c = true → String.leb a c = true.
Proof.
  rewrite !string_leb_lt_or_eq. intros [Hab| ->] [Hbc| ->]; auto.
  left. by eapply OrderedTypeEx.String_as_OT.lt_trans.
Qed.

Lemma string_leb_false (a b : string) :
  String.leb a b = false → String.leb b a = true.
Proof.
  intros Hab. destruct (String.leb_total a b) as [H|H]; [congruence|done].
Qed.


Lemma insert_by_head {A} (key : A → string) x l :
  Forall (λ y, String.leb (key x) (key y) = true) l → insert_by key x l = x :: l.
Proof. intros [|y l' Hy _]; [done|]. cbn [insert_by]. by rewrite Hy. Qed.

Lemma elem_of_insert_by {A} (key : A → string) x y l : y ∈ insert_by key x l ↔ y = x ∨ y ∈ l.
Proof.
  induction l as [|z l IH]; cbn [insert_by].
  - rewrite list_elem_of_singleton, elem_of_nil. tauto.
  - destruct (String.leb (key x) (key z)); rewrite !elem_of_cons, ?IH; tauto.
Qed.



Lemma length_insert_by {A} (key : A → string) x l : length (insert_by key x l) = S (length l).
Proof.
  induction l as [|z l IH]; [done|]. cbn [insert_by].
  destruct (String.leb _ _); simpl; by rewrite ?IH.
Qed.

Lemma length_index_order {A} (key : A → string) l : length (index_order key l) = length l.
Proof.
  induction l as [|x l IH]; [done|]. cbn [index_order].
  by rewrite length_insert_by, IH.
Qed.


Lemma insert_by_ordered {A} (key : A → string) x l : ordered key l → ordered key (insert_by key x l).
Proof.
  unfold ordered. induction 1 as [|y l Hl IH Hy]; cbn [insert_by].
  - repeat constructor.
  - destruct (String.leb (key x) (key y)) eqn:Hxy.
    + constructor; [by constructor|].
      constructor; [done|]. eapply Forall_impl; [exact Hy|].
      intros z Hz. by eapply string_leb_trans.
    + constructor; [done|].
      apply Forall_forall. intros z [->|Hz]%elem_of_insert_by.
      * by apply string_leb_false.
      * rewrite Forall_forall in Hy. by apply Hy.
Qed.

Lemma index_order_ordered {A} (key : A → string) l : ordered key (index_order key l).
Proof.
  induction l as [|x l IH]; [constructor|]. by apply insert_by_ordered.
Qed.

Lemma filter_insert_by {A} (key : A → string) (P : A → Prop) `{∀ x, Decision (P x)} x l :
  ordered key l →
  filter P (insert_by key x l)
  = if decide (P x) then insert_by key x (filter P l) else filter P l.
Proof.
  unfold ordered. induction 1 as [|y l Hl IH Hy]; cbn [insert_by].
  - rewrite filter_cons, filter_nil. by destruct (decide (P x)).
  - destruct (String.leb (key x) (key y)) eqn:Hxy.
    + rewrite (filter_cons _ x). destruct (decide (P x)); [|done].
      symmetry. apply insert_by_head. apply Forall_forall.
      intros z [Hz Hin]%list_elem_of_filter.
      apply elem_of_cons in Hin as [->|Hin]; [done|].
      rewrite Forall_forall in Hy. eapply string_leb_trans; [exact Hxy|]. by apply Hy.
    + rewrite !(filter_cons _ y), IH.
      destruct (decide (P x)), (decide (P y)); try done.
      cbn [insert_by]. by rewrite Hxy.
Qed.

(** Reading a part of the table through the index gives that part of
    what the index gives for the table. *)
Lemma filter_index_order {A} (key : A → string) (P : A → Prop) `{∀ x, Decision (P x)} l :
  filter P (index_order key l) = index_order key (filter P l).
Proof.
  induction l as [|x l IH]; [done|]. cbn [index_order].
  rewrite filter_insert_by by apply index_order_ordered.
  rewrite filter_cons, IH. by destruct (decide (P x)).
Qed.





(** ** The in-memory upsert *)

Lemma list_find_alter_upsert pid q l :
  match list_find (λ c, userId c = DEMO_USER ∧ productId c = pid) l with
  | Some (idx, _) => alter (λ c, CartLine (userId c) (productId c) q) idx l
  | None => l ++ [CartLine DEMO_USER pid q]
  end = upsert_lines pid q l.
Proof.
  induction l as [|c l IH]; [done|].
  cbn [list_find upsert_lines].
  destruct (decide (userId c = DEMO_USER ∧ productId c = pid)); [done|].
  rewrite <- IH.
  destruct (list_find _ l) as [[i x]|]; done.
Qed.

(** What the validation lets through. *)
Lemma post_cart_guard_false pid q :
  pid ≠ "" → (0 < q)%Q →
  js_not (Some pid) || negb (typeof_number (JNum q)) || js_le_zero (JNum q) = false.
Proof.
  intros Hpid Hq. simpl.
  rewrite bool_decide_eq_false_2 by done. simpl.
  destruct (Qle_bool q 0) eqn:E; [|done].
  apply Qle_bool_iff in E. exfalso. eapply Qlt_not_le; eauto.
Qed.

Lemma post_cart_in_memory s pid q :
  useDb s = false → pid ≠ "" → (0 < q)%Q →
  post_cart s (CartRequest (Some pid) (JNum q)) =
    let s' := set_mem_cart s (upsert_lines pid q (mem_cart (mem s))) in
    (s', getCart s').
Proof.
  intros Hdb Hpid Hq. unfold post_cart.
  cbn [req_productId req_qty].
  rewrite post_cart_guard_false, Hdb by done.
  rewrite <- list_find_alter_upsert.
  by destruct (list_find _ _) as [[i x]|].
Qed.



Lemma upsert_lines_keys pid q l :
  line_key <$> upsert_lines pid q l =
    if decide ((DEMO_USER, pid) ∈ line_key <$> l) then line_key <$> l
    else (line_key <$> l) ++ [(DEMO_USER, pid)].
Proof.
  induction l as [|c l IH]; cbn [upsert_lines].
  - rewrite decide_False; [done|]. simpl. apply not_elem_of_nil.
  - destruct (decide (userId c = DEMO_USER ∧ productId c = pid)) as [[Hu Hp]|Hno].
    + rewrite decide_True; [done|].
      rewrite fmap_cons. unfold line_key at 1. rewrite Hu, Hp. apply list_elem_of_here.
    + rewrite !fmap_cons, IH.
      assert (line_key c ≠ (DEMO_USER, pid)) as Hne.
      { unfold line_key. intros [= ? ?]. by apply Hno. }
      destruct (decide ((DEMO_USER, pid) ∈ line_key <$> l)) as [Hin|Hout].
      * rewrite decide_True; [done|]. by apply list_elem_of_further.
      * rewrite decide_False; [done|].
        intros [?|?]%elem_of_cons; congruence.
Qed.



(** ** The durable upsert *)

Lemma update_cart_qty_rows d q id :
  db_cart (Sql.update_cart_qty d q id) = set_row_qty q id <$> db_cart d.
Proof. reflexivity. Qed.

Lemma set_row_qty_id q id c : row_id (set_row_qty q id c) = row_id c.
Proof. unfold set_row_qty. by destruct (decide _). Qed.

Lemma set_row_qty_userId q id c : row_userId (set_row_qty q id c) = row_userId c.
Proof. unfold set_row_qty. by destruct (decide _). Qed.

Lemma set_row_qty_productId q id c :
  row_productId (set_row_qty q id c) = row_productId c.
Proof. unfold set_row_qty. by destruct (decide _). Qed.



Lemma select_product_id_None d pid :
  pid ∉ prod_id <$> db_products d → Sql.select_product_id d pid = None.
Proof.
  intros Hout. unfold Sql.select_product_id.
  rewrite filter_none; [done|].
  apply Forall_forall. intros p Hp Heq. apply Hout.
  apply list_elem_of_fmap. by exists p.
Qed.

Lemma select_product_id_Some d pid :
  pid ∈ prod_id <$> db_products d → Sql.select_product_id d pid = Some pid.
Proof.
  intros (p & -> & Hp)%list_elem_of_fmap. unfold Sql.select_product_id.
  induction (db_products d) as [|p' ps IH]; [by apply elem_of_nil in Hp|].
  rewrite filter_cons. destruct (decide (prod_id p' = prod_id p)) as [Heq|Hne].
  - simpl. by rewrite Heq.
  - apply elem_of_cons in Hp as [->|Hp]; [done|]. auto.
Qed.

Lemma insert_cart_done d pid q :
  Sql.select_cart_line d DEMO_USER pid = None →
  pid ∈ prod_id <$> db_products d →
  Sql.insert_cart d DEMO_USER pid q =
    Sql.Done (Database (db_products d)
                (db_cart d ++ [CartRow (Sql.next_rowid d) DEMO_USER pid q])
                (Sql.next_rowid d)).
Proof.
  intros Hnone Hin. unfold Sql.insert_cart.
  rewrite bool_decide_eq_false_2.
  - rewrite bool_decide_eq_true_2; [done|].
    apply Exists_exists. apply list_elem_of_fmap in Hin as (p & -> & Hp). eauto.
  - intros (c & Hc & HP)%Exists_exists.
    apply head_None in Hnone.
    by apply (filter_nil_not_elem_of _ _ c Hnone HP).
Qed.

Lemma post_cart_durable s pid q :
  useDb s = true → pid ≠ "" → (0 < q)%Q → known_product s pid →
  post_cart s (CartRequest (Some pid) (JNum q)) =
    let s' := set_db s (db_upsert (db s) pid q) in
    (s', getCart s').
Proof.
  intros Hdb Hpid Hq Hin. unfold known_product, catalog in Hin. rewrite Hdb in Hin.
  unfold post_cart. cbn [req_productId req_qty].
  rewrite post_cart_guard_false, Hdb by done.
  rewrite select_product_id_Some by done.
  unfold db_upsert.
  destruct (Sql.select_cart_line (db s) DEMO_USER pid) as [e|] eqn:He; [done|].
  by rewrite insert_cart_done.
Qed.

Lemma post_cart_durable_unknown s pid q :
  useDb s = true → pid ≠ "" → (0 < q)%Q → ¬ known_product s pid →
  post_cart s (CartRequest (Some pid) (JNum q)) =
    (s, res_status_json 404 (JsonError "Product not found")).
Proof.
  intros Hdb Hpid Hq Hout. unfold known_product, catalog in Hout. rewrite Hdb in Hout.
  unfold post_cart. cbn [req_productId req_qty].
  rewrite post_cart_guard_false, Hdb by done.
  by rewrite select_product_id_None.
Qed.

Lemma next_rowid_fresh d c : c ∈ db_cart d → row_id c < Sql.next_rowid d.
Proof.
  unfold Sql.next_rowid. generalize (db_cart_seq d).
  induction (db_cart d) as [|x l IH]; intros z Hc; [by apply elem_of_nil in Hc|].
  rewrite fmap_cons. cbn [foldr].
  apply elem_of_cons in Hc as [->|Hc]; [lia|].
  specialize (IH z Hc). lia.
Qed.

Lemma NoDup_fmap_filter {A B} (k : A → B) (P : A → Prop) `{∀ x, Decision (P x)}
    (l : list A) :
  NoDup (k <$> l) → NoDup (k <$> filter P l).
Proof.
  intros Hnd. eapply sublist_NoDup; [exact Hnd|].
  apply fmap_sublist, sublist_filter.
Qed.







Lemma db_upsert_primary_key d pid q :
  NoDup (row_id <$> db_cart d) → NoDup (row_id <$> db_cart (db_upsert d pid q)).
Proof.
  intros Hnd. unfold db_upsert.
  destruct (Sql.select_cart_line d DEMO_USER pid) as [e|] eqn:He.
  - rewrite update_cart_qty_rows, <- list_fmap_compose.
    erewrite list_fmap_ext; [exact Hnd|].
    intros i c _. simpl. apply set_row_qty_id.
  - cbn [db_cart]. rewrite fmap_app. apply NoDup_app.
    split_and!; [done| |apply NoDup_singleton].
    intros k (c & -> & Hc)%list_elem_of_fmap Hk%list_elem_of_singleton.
    apply next_rowid_fresh in Hc. simpl in Hk. lia.
Qed.



(** ** The routes, case by case *)

Lemma db_upsert_products d pid q : db_products (db_upsert d pid q) = db_products d.
Proof. unfold db_upsert. by destruct (Sql.select_cart_line _ _ _). Qed.

Lemma line_key_of_row (l : list cart_row) :
  line_key <$> (line_of_row <$> l) = row_key <$> l.
Proof. by rewrite <- list_fmap_compose. Qed.

Lemma post_cart_cases s b : post_cart_outcome s b.
Proof.
  destruct b as [[pid|] v].
  2: { apply post_refused; reflexivity || (simpl; lia). }
  destruct v as [| |?|q|?|];
    try (apply post_refused; unfold post_cart; simpl;
         rewrite ?orb_true_r; reflexivity || (simpl; lia)).
  destruct (decide (pid = "")) as [->|Hpid].
  { apply post_refused; reflexivity || (simpl; lia). }
  destruct (Qlt_le_dec 0 q) as [Hq|Hq].
  2: { apply Qle_bool_iff in Hq.
       apply post_refused; unfold post_cart; simpl; rewrite Hq, orb_true_r;
         reflexivity || (simpl; lia). }
  destruct (useDb s) eqn:Hdb.
  - destruct (decide (known_product s pid)) as [Hin|Hout].
    + by eapply post_upserted.
    + apply post_refused; rewrite post_cart_durable_unknown by done;
        reflexivity || (simpl; lia).
  - apply (post_upserted _ _ pid q); [done..|]. rewrite Hdb. done.
Qed.




(** X20: every route keeps the rowids of [cart] distinct. *)
Lemma primary_key_preserved s r : primary_key s → primary_key (handle s r).1.
Proof.
  unfold primary_key. intros Hpk. destruct r as [|b|pid| |rnd now|]; try done.
  - cbn [handle]. destruct (post_cart_cases s b) as [Hsame _|pid q -> Hpid Hq Hk].
    + by rewrite Hsame.
    + destruct (useDb s) eqn:Hdb.
      * rewrite post_cart_durable by auto. cbn [fst set_db db].
        by apply db_upsert_primary_key.
      * rewrite post_cart_in_memory by auto. done.
  - cbn [handle]. unfold delete_cart. cbn [fst]. destruct (useDb s); [|done].
    cbn [set_db db Sql.delete_cart_line db_cart]. by apply NoDup_fmap_filter.
  - cbn [handle]. unfold post_checkout. cbn [fst]. destruct (useDb s); [|done].
    cbn [set_db db Sql.delete_cart_user db_cart]. by apply NoDup_fmap_filter.
Qed.

(** ** Upsert *)



(** ** Frame: the other users *)


(** ** Remove *)

(** C6: removing a product the demo user has no line for is answered like
    any removal, 200 with the cart view, and leaves the state as it was. *)
Theorem remove_absent_is_noop (s : server) (pid : string) :
  Forall (λ c, productId c ≠ pid) (get s DEMO_USER) →
  handle s (DELETE_cart pid) = (s, res_json (JsonCart (cart_view_of s))) ∧
  (∀ s0 pid0, (handle s0 (DELETE_cart pid0)).2
              = res_json (JsonCart (cart_view_of (handle s0 (DELETE_cart pid0)).1))).
Proof.
  intros Habs. split; [|done].
  cbn [handle]. unfold delete_cart.
  assert (Forall (λ c, ¬ (userId c = DEMO_USER ∧ productId c = pid)) (lines s)) as Hl.
  { apply Forall_forall. intros c Hc [Hcu Hcp].
    rewrite Forall_forall in Habs. apply (Habs c); [|done].
    unfold get. by apply list_elem_of_filter. }
  unfold lines in Hl. destruct (useDb s) eqn:Hdb.
  - unfold Sql.delete_cart_line. rewrite filter_all.
    + destruct s as [u [ps rows seq] m]. simpl in *. by subst u.
    + apply Forall_forall. intros c Hc. rewrite Forall_forall in Hl.
      apply (Hl (line_of_row c)). by apply list_elem_of_fmap_2.
  - rewrite filter_all by done. by rewrite set_mem_cart_same.
Qed.

(** ** The response of a mutation *)

(** C10: the body of a successful POST /cart, and of every
    DELETE /cart/{productId}, is the cart view of the state the route
    leaves, which is what a GET /cart that follows returns. *)
Theorem mutation_returns_fresh_view (s : server) (r : request) :
  (∃ b, r = POST_cart b) ∨ (∃ pid, r = DELETE_cart pid) →
  status (handle s r).2 = 200 →
  (handle s r).2 = res_json (JsonCart (cart_view_of (handle s r).1)) ∧
  handle (handle s r).1 GET_cart = ((handle s r).1, (handle s r).2).
Proof.
  intros [[b ->]|[pid ->]] Hok.
  - cbn [handle] in *.
    destruct (post_cart_cases s b) as [_ Hno|pid q -> Hpid Hq Hk]; [done|].
    destruct (useDb s) eqn:Hdb.
    + by rewrite post_cart_durable by auto.
    + by rewrite post_cart_in_memory by auto.
  - done.
Qed.

(** ** The cart view *)

(** *** Sums of whole numbers

    A whole number up to [2^53] is a double, so sums and products of whole
    numbers that stay below that bound are exact. *)

Lemma floor_log2_whole z : 0 < z → floor_log2 z 1 = Z.log2 z.
Proof.
  intros Hz. unfold floor_log2. change (Z.log2 1) with 0. rewrite Z.sub_0_r.
  pose proof (Z.log2_nonneg z) as H0.
  pose proof (Z.log2_spec z Hz) as [Hlo _].
  rewrite (proj2 (Z.leb_le 0 _)) by done.
  by rewrite (proj2 (Z.leb_le _ _)) by lia.
Qed.

Lemma round_half_even_whole n : round_half_even n 1 = n.
Proof. unfold round_half_even. by rewrite Z.mod_1_r, Z.div_1_r. Qed.

Lemma Qred_whole z k : 0 < k → Qred (z * k # Z.to_pos k) = inject_Z z.
Proof.
  intros Hk. transitivity (Qred (inject_Z z)).
  - apply Qred_complete. unfold Qeq, inject_Z. cbn [Qnum Qden].
    rewrite Z2Pos.id by done. lia.
  - apply Qcanon.Qred_identity. cbn [Qnum Qden inject_Z]. apply Z.gcd_1_r.
Qed.

Lemma round64_whole z : 0 ≤ z ≤ 2 ^ 53 → round64 (inject_Z z) = Num (inject_Z z).
Proof.
  intros [H0 H53]. unfold round64. cbn [Qnum Qden inject_Z].
  destruct z as [|n|n]; [done| |lia].
  unfold round_positive. rewrite floor_log2_whole by done.
  pose proof (Z.log2_nonneg (Z.pos n)) as HL0.
  pose proof (Z.log2_spec (Z.pos n) eq_refl) as [Hlo Hhi].
  assert (Z.log2 (Z.pos n) ≤ 53) as HL.
  { rewrite <- (Z.log2_pow2 53) by done. by apply Z.log2_le_mono. }
  rewrite Z.max_l by lia.
  destruct (Z.leb_spec 0 (Z.log2 (Z.pos n) - 52)) as [Hp|Hp].
  - assert (Z.log2 (Z.pos n) = 52 ∨ Z.log2 (Z.pos n) = 53) as [E|E] by lia.
    + rewrite E. change (2 ^ (52 - 52)) with 1. change (1 * 1) with 1.
      rewrite round_half_even_whole, Z.mul_1_r.
      rewrite (proj2 (Z.leb_gt _ _)); [done|].
      apply Z.le_lt_trans with (2 ^ 53); [done|]. by apply Z.pow_lt_mono_r.
    + rewrite E in Hlo. assert (Z.pos n = 2 ^ 53) as -> by lia.
      by vm_compute.
  - rewrite round_half_even_whole. f_equal. apply Qred_whole.
    apply Z.pow_pos_nonneg; lia.
Qed.

Lemma Qplus_whole a b : (inject_Z a + inject_Z b)%Q = inject_Z (a + b).
Proof. unfold Qplus, inject_Z. cbn [Qnum Qden]. by rewrite !Z.mul_1_r. Qed.

Lemma Qmult_whole a b : (inject_Z a * inject_Z b)%Q = inject_Z (a * b).
Proof. done. Qed.

Lemma js_add_whole a b :
  0 ≤ a + b ≤ 2 ^ 53 →
  js_add (Num (inject_Z a)) (Num (inject_Z b)) = Num (inject_Z (a + b)).
Proof. intros H. cbn [js_add]. rewrite Qplus_whole. by apply round64_whole. Qed.

Lemma js_mul_whole a b :
  0 ≤ a * b ≤ 2 ^ 53 →
  js_mul (Num (inject_Z a)) (Num (inject_Z b)) = Num (inject_Z (a * b)).
Proof. intros H. cbn [js_mul]. rewrite Qmult_whole. by apply round64_whole. Qed.

(** The exact sum over whole items is a whole number, and [reduce]
    reaches it from any whole accumulator when the end is within [2^53]. *)
Lemma reduce_whole its :
  Forall whole_item its →
  ∃ T, 0 ≤ T ∧ sum_price_qty its = Some (inject_Z T) ∧
       ∀ A, 0 ≤ A → A + T ≤ 2 ^ 53 →
            foldl (λ sum it, js_add sum (js_mul (to_number (item_price it))
                                                (Num (item_qty it))))
                  (Num (inject_Z A)) its
            = Num (inject_Z (A + T)).
Proof.
  induction 1 as [|it its (p & k & Hp & Hk & Hprice & Hqty) _ (T & HT & Hsum & IH)].
  - exists 0. split_and!; [done..|]. intros A _ _. cbn [foldl]. by rewrite Z.add_0_r.
  - exists (p * k + T). split_and!; [nia| |].
    + cbn [sum_price_qty]. by rewrite Hprice, Hsum, Hqty, Qmult_whole, Qplus_whole.
    + intros A HA Hbound. cbn [foldl]. rewrite Hprice, Hqty. cbn [to_number].
      rewrite js_mul_whole by nia. rewrite js_add_whole by nia.
      rewrite IH by nia. f_equal. f_equal. lia.
Qed.

(** [NaN] stays: an item without a price makes the total [NaN]. *)
Lemma reduce_NaN its :
  foldl (λ sum it, js_add sum (js_mul (to_number (item_price it)) (Num (item_qty it))))
        NaN its = NaN.
Proof. induction its as [|it its IH]; [done|]. cbn [foldl js_add]. exact IH. Qed.

Lemma reduce_no_price its : ∀ acc,
  sum_price_qty its = None →
  foldl (λ sum it, js_add sum (js_mul (to_number (item_price it)) (Num (item_qty it))))
        acc its = NaN.
Proof.
  induction its as [|it its IH]; intros acc Hsum; [done|].
  cbn [sum_price_qty] in Hsum. cbn [foldl].
  destruct (item_price it) as [p|].
  - apply IH. by destruct (sum_price_qty its).
  - cbn [to_number js_mul].
    replace (js_add acc NaN) with NaN by (by destruct acc).
    apply reduce_NaN.
Qed.





(** *** The items of the view *)








(** *** The total *)

(** The total over whole items whose sum is within [2^53] is that sum. *)
Lemma reduce_total_whole its t :
  Forall whole_item its → sum_price_qty its = Some t →
  (t <= inject_Z (2 ^ 53))%Q →
  reduce_total its = Num t.
Proof.
  intros Hwhole Hsum Hle.
  destruct (reduce_whole _ Hwhole) as (T & HT & HsumT & Hred).
  rewrite HsumT in Hsum. injection Hsum as <-.
  rewrite <- Zle_Qle in Hle.
  unfold reduce_total. change (Num 0) with (Num (inject_Z 0)).
  by rewrite Hred.
Qed.



(** The JSON texts [0.1] and [0.7] denote these doubles. *)
Lemma doubles_of_0_1_and_0_7 :
  round64 (1 # 10) = Num double_0_1 ∧ round64 (7 # 10) = Num double_0_7.
Proof. split; vm_compute; reflexivity. Qed.



(** ** Checkout *)

Lemma empty_cart_view s :
  get s DEMO_USER = [] → cart_view_of s = CartView [] (Num 0).
Proof.
  unfold get, lines, cart_view_of. intros Hget. destruct (useDb s).
  - rewrite filter_fmap_comm in Hget. apply fmap_nil_inv in Hget.
    unfold Sql.select_cart_join.
    replace (filter (λ c, row_userId c = DEMO_USER) (db_cart (db s))) with (@nil cart_row).
    done.
  - by rewrite Hget.
Qed.

Lemma checkout_clears s rnd now :
  get (handle s (POST_checkout rnd now)).1 DEMO_USER = [].
Proof.
  cbn [handle]. unfold post_checkout, get, lines. cbn [fst]. destruct (useDb s) eqn:Hdb.
  - cbn [set_db useDb db Sql.delete_cart_user db_cart]. rewrite Hdb.
    rewrite filter_fmap_comm, list_filter_filter, filter_none; [done|].
    apply Forall_forall. intros c _. simpl. tauto.
  - cbn [set_mem_cart useDb mem mem_cart]. rewrite Hdb.
    rewrite list_filter_filter, filter_none; [done|].
    apply Forall_forall. intros c _. simpl. tauto.
Qed.

(** C7: in every state of either store, checkout answers 200 with a
    receipt whose items and total are those of the cart view just before,
    and leaves the demo user without lines (the view that follows is empty);
    on an empty cart the receipt has no items and total 0; a cart of p1
    (1999) once and p2 (699) twice gives total 3397. *)
Theorem checkout_snapshots_and_clears :
  (∀ s rnd now,
     let out := handle s (POST_checkout rnd now) in
     out.2 = res_json (JsonReceipt (Receipt ("rcpt_" +:+ rnd) (total (cart_view_of s))
                                            (items (cart_view_of s)) now)) ∧
     get out.1 DEMO_USER = [] ∧
     cart_view_of out.1 = CartView [] (Num 0)) ∧
  (∀ s rnd now,
     get s DEMO_USER = [] →
     (handle s (POST_checkout rnd now)).2
     = res_json (JsonReceipt (Receipt ("rcpt_" +:+ rnd) (Num 0) [] now))) ∧
  (∀ s, s = durable_start ∨ s = in_memory_start →
     (serve s [p1_once; p2_twice; POST_checkout "k3x9q0" "2025-01-01T00:00:00.000Z";
               GET_cart]).2 !! 2%nat
     = Some (res_json (JsonReceipt
         (Receipt "rcpt_k3x9q0" (Num 3397)
            [Item (Some "p1") (Some "Bluetooth Headphones") (Some 1999%Q) (Some "🎧") 1;
             Item (Some "p2") (Some "Wireless Mouse") (Some 699%Q) (Some "🖱️") 2]
            "2025-01-01T00:00:00.000Z"))) ∧
     (serve s [p1_once; p2_twice; POST_checkout "k3x9q0" "2025-01-01T00:00:00.000Z";
               GET_cart]).2 !! 3%nat
     = Some (res_json (JsonCart (CartView [] (Num 0))))).
Proof.
  split_and!.
  - intros s rnd now out. subst out. split_and!.
    + apply post_checkout_view.
    + apply checkout_clears.
    + apply empty_cart_view, checkout_clears.
  - intros s rnd now Hempty. cbn [handle].
    by rewrite post_checkout_view, empty_cart_view.
  - intros s [-> | ->]; split; vm_compute; reflexivity.
Qed.

(** ** Validation of the quantity *)

Lemma not_positive_number_guard v :
  ¬ positive_number v → negb (typeof_number v) || js_le_zero v = true.
Proof.
  intros Hno. destruct v as [| |?|q|?|]; try done. simpl.
  apply Qle_bool_iff. destruct (Qlt_le_dec 0 q) as [Hq|Hq]; [|done].
  exfalso. apply Hno. by exists q.
Qed.

(** C4, as the code has it: a qty that is not a number greater than zero
    (not a number at all, or zero or less) is answered 400 and the state is
    left as it was; a number greater than zero, whole or not, passes the
    validation when a productId comes with it. *)
Theorem post_cart_validates_qty (s : server) (b : cart_request) :
  (¬ positive_number (req_qty b) →
   handle s (POST_cart b)
   = (s, res_status_json 400 (JsonError "productId and qty>0 required"))) ∧
  (positive_number (req_qty b) → js_not (req_productId b) = false →
   status (handle s (POST_cart b)).2 ≠ 400).
Proof.
  split.
  - intros Hno. cbn [handle]. unfold post_cart.
    rewrite <- orb_assoc, not_positive_number_guard, orb_true_r; done.
  - intros (q & Hv & Hq) Hpid. destruct b as [[pid|] v]; [|done].
    simpl in Hv, Hpid. subst v. apply bool_decide_eq_false in Hpid.
    cbn [handle]. destruct (useDb s) eqn:Hdb.
    + destruct (decide (known_product s pid)).
      * by rewrite post_cart_durable.
      * by rewrite post_cart_durable_unknown.
    + by rewrite post_cart_in_memory.
Qed.

(** C4 as the spec words it fails: qty 1.5 is not a whole number, yet both
    servers answer 200 and store the line. *)
Lemma non_integer_qty_accepted :
  ¬ positive_integer (JNum (3 # 2)) ∧
  (handle durable_start p1_one_and_a_half).2 ≠
    res_status_json 400 (JsonError "productId and qty>0 required") ∧
  status (handle durable_start p1_one_and_a_half).2 = 200 ∧
  get durable_start DEMO_USER = [] ∧
  get (handle durable_start p1_one_and_a_half).1 DEMO_USER
  = [CartLine "demo" "p1" (3 # 2)] ∧
  status (handle in_memory_start p1_one_and_a_half).2 = 200 ∧
  get in_memory_start DEMO_USER = [] ∧
  get (handle in_memory_start p1_one_and_a_half).1 DEMO_USER
  = [CartLine "demo" "p1" (3 # 2)].
Proof.
  split_and!; try (vm_compute; reflexivity).
  - intros (q & n & [= <-] & Heq & Hn). unfold Qeq in Heq. simpl in Heq. lia.
  - vm_compute. discriminate.
Qed.

(** ** Upserts of a product the catalog does not have *)

(** X22: the durable branch looks the product up first: an unknown
    productId is answered 404 and nothing is written. *)
Lemma durable_unknown_product_404 s pid q :
  useDb s = true → pid ≠ "" → (0 < q)%Q → ¬ known_product s pid →
  handle s (POST_cart (CartRequest (Some pid) (JNum q)))
  = (s, res_status_json 404 (JsonError "Product not found")).
Proof. intros. cbn [handle]. by apply post_cart_durable_unknown. Qed.

(** The in-memory branch has no such lookup: every productId is stored and
    answered 200. *)
Lemma in_memory_unknown_product_200 s pid q :
  useDb s = false → pid ≠ "" → (0 < q)%Q →
  status (handle s (POST_cart (CartRequest (Some pid) (JNum q)))).2 = 200 ∧
  CartLine DEMO_USER pid q ∈ lines (handle s (POST_cart (CartRequest (Some pid) (JNum q)))).1.
Proof.
  intros Hdb Hpid Hq. cbn [handle]. rewrite post_cart_in_memory by done.
  split; [done|]. cbn [fst]. unfold lines. cbn [set_mem_cart useDb mem mem_cart].
  rewrite Hdb. induction (mem_cart (mem s)) as [|c l IH]; cbn [upsert_lines].
  - apply list_elem_of_here.
  - destruct (decide _) as [[-> ->]|_].
    + apply list_elem_of_here.
    + by apply list_elem_of_further.
Qed.

(** C1 at the failing input: the in-memory server, started empty, is sent
    productId "zzz" (not in the catalog) with qty 1; it answers 200 and has
    stored the line. *)
Theorem in_memory_upsert_skips_catalog_check :
  positive_number (JNum 1) ∧
  ¬ known_product in_memory_start "zzz" ∧
  handle in_memory_start zzz_once
  = (set_mem_cart in_memory_start [CartLine "demo" "zzz" 1],
     Response 200 (JsonCart (CartView [Item None None None None 1] NaN))).
Proof.
  split_and!.
  - exists 1%Q. split; [done|]. reflexivity.
  - apply (bool_decide_eq_false_1 (known_product _ _)). vm_compute. reflexivity.
  - vm_compute. reflexivity.
Qed.

(** C2 at the failing input: started from the same catalog and the same
    empty cart, the durable server answers the upsert of "zzz" with 404 and
    the in-memory server with 200. *)
Theorem backends_disagree_on_unknown_product :
  catalog durable_start = catalog in_memory_start ∧
  lines durable_start = lines in_memory_start ∧
  (handle durable_start zzz_once).2
  = Response 404 (JsonError "Product not found") ∧
  (handle in_memory_start zzz_once).2
  = Response 200 (JsonCart (CartView [Item None None None None 1] NaN)).
Proof. split_and!; vm_compute; reflexivity. Qed.

(** ** Lines of a product the catalog does not have *)

(** X21: the durable join drops them: the view is that of the table
    without them. *)
Lemma durable_view_drops_orphans s :
  useDb s = true →
  cart_view_of s
  = cart_view_of
      (set_db s (Database (db_products (db s))
                   (filter (λ c, row_productId c ∈ prod_id <$> db_products (db s))
                           (db_cart (db s)))
                   (db_cart_seq (db s)))).
Proof.
  intros Hdb. unfold cart_view_of. cbn [set_db useDb db]. rewrite Hdb.
  assert (Sql.select_cart_join (db s) DEMO_USER
          = Sql.select_cart_join
              (Database (db_products (db s))
                 (filter (λ c, row_productId c ∈ prod_id <$> db_products (db s))
                         (db_cart (db s)))
                 (db_cart_seq (db s))) DEMO_USER) as ->; [|done].
  unfold Sql.select_cart_join. cbn [db_products db_cart].
  generalize (db_products (db s)). intros ps.
  assert (filter (λ c, row_userId c = DEMO_USER)
                 (filter (λ c, row_productId c ∈ prod_id <$> ps) (db_cart (db s)))
          = filter (λ c, row_productId c ∈ prod_id <$> ps)
                   (filter (λ c, row_userId c = DEMO_USER) (db_cart (db s)))) as ->.
  { rewrite !list_filter_filter. apply list_filter_iff. intros c. tauto. }
  rewrite <- (filter_index_order row_productId
                (λ c, row_productId c ∈ prod_id <$> ps)).
  generalize (index_order row_productId
                (filter (λ c, row_userId c = DEMO_USER) (db_cart (db s)))).
  intros rows. induction rows as [|c rows IH]; [done|].
  rewrite filter_cons.
  destruct (decide (row_productId c ∈ prod_id <$> ps)) as [Hin|Hout].
  - cbn [mbind list_bind]. by rewrite IH.
  - cbn [mbind list_bind]. rewrite <- IH.
    rewrite (filter_none (λ p, prod_id p = row_productId c)); [done|].
    apply Forall_forall. intros p Hp Heq. apply Hout.
    rewrite <- Heq. by apply list_elem_of_fmap_2.
Qed.

(** C3 at the failing input: the in-memory server holding the line of
    "zzz" (the state the upsert above leaves) returns it as an item with a
    qty and nothing else, and a total that is NaN. *)
Theorem in_memory_view_keeps_orphan_line :
  let s := (handle in_memory_start zzz_once).1 in
  lines s = [CartLine "demo" "zzz" 1] ∧
  ¬ known_product s "zzz" ∧
  handle s GET_cart
  = (s, Response 200 (JsonCart (CartView [Item None None None None 1] NaN))).
Proof.
  split_and!.
  - vm_compute. reflexivity.
  - apply (bool_decide_eq_false_1 (known_product _ _)). vm_compute. reflexivity.
  - vm_compute. reflexivity.
Qed.

(** ** Where the two backends agree

    The upsert of a product the catalog does not have is the request the
    two backends answer with different statuses.  Started from the same
    catalog and the same lines, with the constraints of the schema in
    force, they give the same statuses for as long as the durable one does
    not answer 404, and the same items; but the durable server lists the
    items in the order of their productId, the in-memory server in the
    order of its array, and each sums its total in the order of its
    list. *)




Lemma db_upsert_foreign_key d pid q :
  pid ∈ prod_id <$> db_products d →
  Forall (λ c, row_productId c ∈ prod_id <$> db_products d) (db_cart d) →
  Forall (λ c, row_productId c ∈ prod_id <$> db_products d) (db_cart (db_upsert d pid q)).
Proof.
  intros Hpid Hfk. unfold db_upsert.
  destruct (Sql.select_cart_line d DEMO_USER pid) as [e|].
  - rewrite update_cart_qty_rows. apply Forall_fmap.
    eapply Forall_impl; [exact Hfk|].
    intros c Hc. simpl. by rewrite set_row_qty_productId.
  - cbn [db_cart]. apply Forall_app. split; [done|].
    by apply Forall_singleton.
Qed.










(** ** The theorems at concrete inputs *)



Lemma remove_absent_is_noop_witness :
  Forall (λ c, productId c ≠ "p2") (get two_users DEMO_USER) ∧
  handle two_users (DELETE_cart "p2")
  = (two_users, res_json (JsonCart (cart_view_of two_users))).
Proof.
  assert (Forall (λ c, productId c ≠ "p2") (get two_users DEMO_USER)) as H1.
  { apply (bool_decide_unpack _). vm_compute. exact I. }
  split; [exact H1|].
  exact (proj1 (remove_absent_is_noop two_users "p2" H1)).
Defined.

Lemma mutation_returns_fresh_view_witness :
  let r := POST_cart (CartRequest (Some "p1") (JNum 3)) in
  status (handle two_users r).2 = 200 ∧
  handle (handle two_users r).1 GET_cart = ((handle two_users r).1, (handle two_users r).2).
Proof.
  intros r.
  assert (status (handle two_users r).2 = 200) as H1 by (vm_compute; reflexivity).
  split; [exact H1|].
  exact (proj2 (mutation_returns_fresh_view two_users r
                  (or_introl (ex_intro _ _ eq_refl)) H1)).
Defined.

Lemma post_cart_validates_qty_witness :
  ¬ positive_number (JNum 0) ∧
  handle two_users (POST_cart (CartRequest (Some "p1") (JNum 0)))
  = (two_users, res_status_json 400 (JsonError "productId and qty>0 required")) ∧
  positive_number (JNum (3 # 2)) ∧
  status (handle two_users (POST_cart (CartRequest (Some "p1") (JNum (3 # 2))))).2 ≠ 400.
Proof.
  assert (¬ positive_number (JNum 0)) as H1.
  { intros (q & [= <-] & Hq). discriminate Hq. }
  assert (positive_number (JNum (3 # 2))) as H2.
  { exists (3 # 2)%Q. split; reflexivity. }
  split_and!; [exact H1| |exact H2|].
  - exact (proj1 (post_cart_validates_qty two_users
                    (CartRequest (Some "p1") (JNum 0))) H1).
  - exact (proj2 (post_cart_validates_qty two_users
                    (CartRequest (Some "p1") (JNum (3 # 2)))) H2 eq_refl).
Defined.

Lemma checkout_snapshots_and_clears_witness :
  get in_memory_start DEMO_USER = [] ∧
  (handle in_memory_start (POST_checkout "k3x9q0" "2025-01-01T00:00:00.000Z")).2
  = res_json (JsonReceipt (Receipt "rcpt_k3x9q0" (Num 0) []
                                   "2025-01-01T00:00:00.000Z")).
Proof.
  assert (get in_memory_start DEMO_USER = []) as H1 by reflexivity.
  split; [exact H1|].
  exact (proj1 (proj2 checkout_snapshots_and_clears) in_memory_start
               "k3x9q0" "2025-01-01T00:00:00.000Z" H1).
Defined.


(** ** What no route does *)

Lemma backend_frame_step (s : server) (r : request) :
  let s' := (handle s r).1 in
  useDb s' = useDb s ∧
  db_products (db s') = db_products (db s) ∧
  mem_products (mem s') = mem_products (mem s) ∧
  (if useDb s then mem s' = mem s else db s' = db s).
Proof.
  destruct r as [|b|pid| |rnd now|]; cbn [handle fst];
    try (split_and!; [done..|by destruct (useDb s)]).
  - destruct (post_cart_cases s b) as [Hsame _|pid q -> Hpid Hq Hk].
    + rewrite Hsame. split_and!; [done..|by destruct (useDb s)].
    + destruct (useDb s) eqn:Hdb.
      * rewrite post_cart_durable by auto. cbn [fst set_db useDb db mem].
        rewrite db_upsert_products, Hdb. done.
      * rewrite post_cart_in_memory by auto.
        cbn [fst set_mem_cart useDb db mem mem_products]. by rewrite Hdb.
  - unfold delete_cart. cbn [fst]. destruct (useDb s) eqn:Hdb;
      cbn [set_db set_mem_cart useDb db mem mem_products Sql.delete_cart_line db_products];
      by rewrite Hdb.
  - unfold post_checkout. cbn [fst]. destruct (useDb s) eqn:Hdb;
      cbn [set_db set_mem_cart useDb db mem mem_products Sql.delete_cart_user db_products];
      by rewrite Hdb.
Qed.

(** X1: along any run of requests, the backend in use stays the one chosen
    at start-up, the catalog of either store is never written, and the store
    that is not in use is never touched. *)
Theorem backend_and_catalog_fixed (rs : list request) : ∀ s,
  useDb (serve s rs).1 = useDb s ∧
  db_products (db (serve s rs).1) = db_products (db s) ∧
  mem_products (mem (serve s rs).1) = mem_products (mem s) ∧
  (if useDb s then mem (serve s rs).1 = mem s else db (serve s rs).1 = db s).
Proof.
  induction rs as [|r rs IH]; intros s.
  - cbn [serve fst]. by destruct (useDb s).
  - cbn [serve].
    pose proof (backend_frame_step s r) as Hstep.
    destruct (handle s r) as [s1 out]. cbn [fst] in Hstep.
    specialize (IH s1). destruct (serve s1 rs) as [s2 outs]. cbn [fst] in *.
    destruct Hstep as (Hu & Hd & Hm & Hoff), IH as (Hu' & Hd' & Hm' & Hoff').
    rewrite Hu in Hoff'. split_and!; [congruence..|].
    destruct (useDb s); congruence.
Qed.

(** ** Status codes and failed requests *)

Lemma post_cart_status s b :
  status (post_cart s b).2 = 200 ∨
  status (post_cart s b).2 = 400 ∨
  (useDb s = true ∧ status (post_cart s b).2 = 404).
Proof.
  destruct b as [[pid|] v]; [|by right; left].
  destruct v as [| |?|q|?|];
    try (right; left; unfold post_cart; simpl; by rewrite ?orb_true_r).
  destruct (decide (pid = "")) as [->|Hpid]; [by right; left|].
  destruct (Qlt_le_dec 0 q) as [Hq|Hq].
  - destruct (useDb s) eqn:Hdb.
    + destruct (decide (known_product s pid)).
      * left. by rewrite post_cart_durable.
      * right. right. by rewrite post_cart_durable_unknown.
    + left. by rewrite post_cart_in_memory.
  - right. left. apply Qle_bool_iff in Hq. unfold post_cart. simpl.
    by rewrite Hq, !orb_true_r.
Qed.

Lemma handle_status s r :
  status (handle s r).2 = 200 ∨
  status (handle s r).2 = 400 ∨
  (status (handle s r).2 = 404 ∧ useDb s = true ∧ ∃ b, r = POST_cart b).
Proof.
  destruct r as [|b|pid| |rnd now|]; cbn [handle]; try by left.
  - left. unfold get_products. by destruct (useDb s).
  - destruct (post_cart_status s b) as [?|[?|[? ?]]]; eauto 10.
Qed.

(** With no statement of another request in between, the route is its two
    [SELECT]s and then the statement they call for, on the same database. *)
Lemma post_cart_plan_then_run s pid q :
  useDb s = true → pid ≠ "" → (0 < q)%Q →
  post_cart s (CartRequest (Some pid) (JNum q))
  = run_upsert s (plan_upsert (db s) pid) pid q.
Proof.
  intros Hdb Hpid Hq. unfold post_cart. cbn [req_productId req_qty].
  rewrite post_cart_guard_false by done. rewrite Hdb.
  unfold run_upsert, plan_upsert.
  destruct (Sql.select_product_id (db s) pid); [|done].
  by destruct (Sql.select_cart_line (db s) DEMO_USER pid).
Qed.

Lemma plan_InsertRow d pid :
  plan_upsert d pid = InsertRow →
  pid ∈ prod_id <$> db_products d ∧ Sql.select_cart_line d DEMO_USER pid = None.
Proof.
  unfold plan_upsert. intros Hplan. split.
  - destruct (decide (pid ∈ prod_id <$> db_products d)) as [|Hno]; [done|].
    by rewrite select_product_id_None in Hplan.
  - destruct (Sql.select_product_id d pid); [|done].
    by destruct (Sql.select_cart_line d DEMO_USER pid).
Qed.

(** X2: the status codes.  When every request is handled from its first
    statement to its response before the next one starts, each response of
    a run has status 200, 400 or 404, and 404 comes only from POST /api/cart
    on the durable server: the route is then its two [SELECT]s followed by
    the statement they call for on the same database, and the [SELECT]s
    rule out the [UNIQUE] and [FOREIGN KEY] rejections of the [INSERT].
    When another POST for the same product runs between the [SELECT]s and
    the [INSERT], [UNIQUE] rejects the [INSERT]: the route answers 500 and
    the qty of the other request stays. *)
Theorem status_is_200_400_or_404 :
  (∀ s pid q, useDb s = true → pid ≠ "" → (0 < q)%Q →
     handle s (POST_cart (CartRequest (Some pid) (JNum q)))
     = run_upsert s (plan_upsert (db s) pid) pid q) ∧
  (∀ rs s,
     Forall2 (λ r out, status out = 200 ∨ status out = 400 ∨
                       (status out = 404 ∧ useDb s = true ∧ ∃ b, r = POST_cart b))
             rs (serve s rs).2) ∧
  (∀ s pid q q',
     useDb s = true → pid ≠ "" → (0 < q)%Q → (0 < q')%Q →
     plan_upsert (db s) pid = InsertRow →
     let other := handle s (POST_cart (CartRequest (Some pid) (JNum q'))) in
     status other.2 = 200 ∧
     run_upsert other.1 InsertRow pid q
     = (other.1, res_status_json 500 (JsonError "Failed to update cart"))).
Proof.
  split_and!.
  - intros s pid q. apply post_cart_plan_then_run.
  - induction rs as [|r rs IH]; intros s; [by apply Forall2_nil|].
    cbn [serve]. pose proof (handle_status s r) as Hst.
    pose proof (backend_frame_step s r) as (Hu & _).
    destruct (handle s r) as [s1 out]. cbn [fst snd] in *.
    specialize (IH s1). rewrite Hu in IH.
    destruct (serve s1 rs) as [s2 outs]. cbn [snd] in *.
    by apply Forall2_cons.
  - intros s pid q q' Hdb Hpid Hq Hq' Hplan other.
    apply plan_InsertRow in Hplan as [Hk Hnone].
    assert (known_product s pid) as Hknown.
    { unfold known_product, catalog. by rewrite Hdb. }
    subst other. cbn [handle]. rewrite post_cart_durable by done. cbn [fst snd].
    split; [done|].
    unfold run_upsert, db_upsert. rewrite Hnone. cbn [set_db db].
    unfold Sql.insert_cart. cbn [db_cart].
    rewrite bool_decide_eq_true_2; [done|].
    apply Exists_app. right. by apply Exists_cons_hd.
Qed.

(** X3: a request that is not answered 200 leaves the server as it
    was. *)
Theorem failed_request_changes_nothing (s : server) (r : request) :
  status (handle s r).2 ≠ 200 → (handle s r).1 = s.
Proof.
  intros Hno. destruct r as [|b|pid| |rnd now|]; cbn [handle] in *; try done.
  destruct (post_cart_cases s b) as [Hsame _|pid q -> Hpid Hq Hk]; [done|].
  exfalso. apply Hno. destruct (useDb s) eqn:Hdb.
  - by rewrite post_cart_durable by auto.
  - by rewrite post_cart_in_memory by auto.
Qed.

Lemma guard_json_of_id id v :
  guard (json_of_id id) v
  = js_not id || negb (typeof_number v) || js_le_zero v.
Proof. by destruct id. Qed.

Lemma js_falsy_iff v :
  js_falsy v = true ↔
  v = JUndefined ∨ v = JNull ∨ v = JBool false ∨ v = JStr "" ∨
  ∃ q, v = JNum q ∧ (q == 0)%Q.
Proof.
  destruct v as [| |b|q|str|]; cbn [js_falsy].
  - split; [tauto|reflexivity].
  - split; [tauto|reflexivity].
  - destruct b; cbn [negb]; split; try tauto; try discriminate.
    intros [H|[H|[H|[H|(q' & H & _)]]]]; discriminate H.
  - split.
    + intros Hq. apply Qeq_bool_iff in Hq. do 4 right. exists q. by split.
    + intros [H|[H|[H|[H|(q' & H & Hq)]]]]; try discriminate H.
      injection H as ->. by apply Qeq_bool_iff.
  - split.
    + intros Hs. apply bool_decide_eq_true in Hs. subst str. tauto.
    + intros [H|[H|[H|[H|(q' & H & _)]]]]; try discriminate H.
      injection H as ->. reflexivity.
  - split; [discriminate|].
    intros [H|[H|[H|[H|(q' & H & _)]]]]; discriminate H.
Qed.

(** X4: the guard of POST /api/cart.  On any JSON body it fires exactly
    when the productId is falsy (absent, [null], [false], [0] or the empty
    string) or the qty is not a number above zero; and the route answers
    400 exactly when the guard fires (the route is modelled for a productId
    that is a string or absent). *)
Theorem bad_request_iff (s : server) (id_v qty_v : jsval) :
  (guard id_v qty_v = true ↔
   (id_v = JUndefined ∨ id_v = JNull ∨ id_v = JBool false ∨ id_v = JStr "" ∨
    ∃ q, id_v = JNum q ∧ (q == 0)%Q) ∨
   ¬ positive_number qty_v) ∧
  (∀ id, id_v = json_of_id id →
     (status (handle s (POST_cart (CartRequest id qty_v))).2 = 400 ↔
      guard id_v qty_v = true)).
Proof.
  split.
  - unfold guard. rewrite <- js_falsy_iff. split.
    + intros Hg. destruct (js_falsy id_v); [by left|right].
      intros (q & -> & Hq). cbn in Hg.
      apply Qle_bool_iff in Hg. by apply Qle_not_lt in Hg.
    + intros [->|Hq]; [done|].
      by rewrite <- orb_assoc, not_positive_number_guard, orb_true_r.
  - intros id ->. rewrite guard_json_of_id. cbn [handle]. split.
    + intros Hst.
      destruct (js_not id || negb (typeof_number qty_v) || js_le_zero qty_v) eqn:Hg;
        [done|exfalso].
      apply orb_false_iff in Hg as [Hg Hle].
      apply orb_false_iff in Hg as [Hid Hty].
      destruct id as [pid|]; [|done].
      destruct qty_v as [| |?|q|?|]; try done.
      cbn in Hid, Hle. apply bool_decide_eq_false in Hid.
      assert (0 < q)%Q as Hq.
      { apply Qnot_le_lt. intros Hq%Qle_bool_iff. by rewrite Hq in Hle. }
      destruct (useDb s) eqn:Hdb.
      * destruct (decide (known_product s pid)).
        -- by rewrite post_cart_durable in Hst.
        -- by rewrite post_cart_durable_unknown in Hst.
      * by rewrite post_cart_in_memory in Hst.
    + intros Hg. unfold post_cart. cbn [req_productId req_qty]. by rewrite Hg.
Qed.

(** ** Start-up and restart *)

Lemma insert_products_distinct ps : ∀ d,
  NoDup (prod_id <$> (db_products d ++ ps)) →
  insert_products d ps
  = Sql.Done (Database (db_products d ++ ps) (db_cart d) (db_cart_seq d)).
Proof.
  induction ps as [|p ps IH]; intros d Hnd.
  - cbn [insert_products]. rewrite app_nil_r. by destruct d.
  - cbn [insert_products]. unfold insert_product.
    rewrite bool_decide_eq_false_2.
    + rewrite IH; cbn [db_products db_cart db_cart_seq]; rewrite <- app_assoc; done.
    + intros (p' & Hp' & Heq)%Exists_exists.
      rewrite fmap_app, fmap_cons in Hnd.
      apply NoDup_app in Hnd as (_ & Hdisj & _).
      apply (Hdisj (prod_id p')); [by apply list_elem_of_fmap_2|].
      rewrite Heq. apply list_elem_of_here.
Qed.

Lemma seed_ids_distinct : NoDup (prod_id <$> seed).
Proof. apply (bool_decide_unpack _). vm_compute. exact I. Qed.

Lemma initDb_empty_catalog d :
  db_products d = [] →
  initDb (Some d) = Server true (Database seed (db_cart d) (db_cart_seq d)) mem0.
Proof.
  intros Hempty. unfold initDb. rewrite Hempty.
  rewrite bool_decide_eq_true_2 by done.
  rewrite insert_products_distinct; rewrite Hempty; [done|].
  apply seed_ids_distinct.
Qed.

Lemma initDb_seeded_catalog d :
  db_products d ≠ [] → initDb (Some d) = Server true d mem0.
Proof.
  intros Hne. unfold initDb. rewrite bool_decide_eq_false_2; [done|].
  by destruct (db_products d).
Qed.


Lemma restart_of_durable s :
  useDb s = true → db_products (db s) ≠ [] → mem s = mem0 →
  initDb (Some (db s)) = s.
Proof.
  intros Hdb Hne Hmem. rewrite initDb_seeded_catalog by done.
  destruct s as [u d m]. simpl in *. by subst.
Qed.

Lemma restart_after_run rs : ∀ s,
  useDb s = true → db_products (db s) ≠ [] → mem s = mem0 →
  initDb (Some (db (serve s rs).1)) = (serve s rs).1.
Proof.
  induction rs as [|r rs IH]; intros s Hdb Hne Hmem.
  - by apply restart_of_durable.
  - cbn [serve].
    pose proof (backend_frame_step s r) as (Hu & Hd & _ & Hoff).
    rewrite Hdb in Hoff.
    destruct (handle s r) as [s1 out]. cbn [fst] in *.
    specialize (IH s1). destruct (serve s1 rs) as [s2 outs]. cbn [fst] in *.
    apply IH; congruence.
Qed.

(** X6: whatever the file held and whatever requests were served since,
    starting the server again on the database the durable server left gives
    back the very state it was in: the catalog, the lines with their rowids
    and the counter of [AUTOINCREMENT]. *)
Theorem durable_restart_recovers_state (d : database) (rs : list request) :
  let s := (serve (initDb (Some d)) rs).1 in
  useDb s = true ∧ initDb (Some (db s)) = s.
Proof.
  cbn zeta.
  assert (useDb (initDb (Some d)) = true ∧ db_products (db (initDb (Some d))) ≠ [] ∧
          mem (initDb (Some d)) = mem0) as (Hdb & Hne & Hmem).
  { destruct (decide (db_products d = [])) as [Hempty|Hne].
    - by rewrite initDb_empty_catalog.
    - by rewrite initDb_seeded_catalog. }
  split; [|by apply restart_after_run].
  clear Hne Hmem. revert Hdb. generalize (initDb (Some d)). intros s.
  revert s. induction rs as [|r rs IH]; intros s Hdb; [done|].
  cbn [serve]. pose proof (backend_frame_step s r) as (Hu & _).
  destruct (handle s r) as [s1 out]. cbn [fst] in *.
  specialize (IH s1). destruct (serve s1 rs) as [s2 outs]. cbn [fst] in *.
  apply IH. congruence.
Qed.

(** ** Remove, and the order of the cart *)

(** X7: DELETE /api/cart/{id} leaves the demo user exactly the lines of
    the other products, in their order, and asking for the same removal
    again changes nothing and is answered the same. *)
Theorem remove_deletes_the_line (s : server) (pid : string) :
  let s' := (handle s (DELETE_cart pid)).1 in
  get s' DEMO_USER = filter (λ c, productId c ≠ pid) (get s DEMO_USER) ∧
  handle s' (DELETE_cart pid) = (s', (handle s (DELETE_cart pid)).2).
Proof.
  cbn [handle]. unfold delete_cart. cbn [fst snd]. split.
  - unfold get, lines. destruct (useDb s) eqn:Hdb.
    + cbn [set_db useDb db Sql.delete_cart_line db_cart]. rewrite Hdb.
      rewrite !filter_fmap_comm, !list_filter_filter. f_equal.
      apply list_filter_iff. intros c. simpl. tauto.
    + cbn [set_mem_cart useDb mem mem_cart]. rewrite Hdb.
      rewrite !list_filter_filter. apply list_filter_iff. intros c. tauto.
  - destruct (useDb s) eqn:Hdb.
    + cbn [set_db useDb db]. rewrite Hdb.
      assert (Sql.delete_cart_line (Sql.delete_cart_line (db s) DEMO_USER pid) DEMO_USER pid
              = Sql.delete_cart_line (db s) DEMO_USER pid) as Hidem.
      { unfold Sql.delete_cart_line. cbn [db_products db_cart db_cart_seq]. f_equal.
        rewrite list_filter_filter. apply list_filter_iff. intros c. tauto. }
      unfold set_db. cbn [useDb db mem]. by rewrite Hidem.
    + cbn [set_mem_cart useDb mem mem_cart mem_products db]. rewrite Hdb.
      assert (∀ l : list cart_line,
                filter (λ c, ¬ (userId c = DEMO_USER ∧ productId c = pid))
                  (filter (λ c, ¬ (userId c = DEMO_USER ∧ productId c = pid)) l)
                = filter (λ c, ¬ (userId c = DEMO_USER ∧ productId c = pid)) l) as Hidem.
      { intros l. rewrite list_filter_filter. apply list_filter_iff. intros c. tauto. }
      unfold set_mem_cart. cbn [useDb db mem mem_cart mem_products].
      by rewrite Hidem.
Qed.

Lemma db_upsert_row_keys d pid q :
  row_key <$> db_cart (db_upsert d pid q) =
    if decide ((DEMO_USER, pid) ∈ row_key <$> db_cart d) then row_key <$> db_cart d
    else (row_key <$> db_cart d) ++ [(DEMO_USER, pid)].
Proof.
  unfold db_upsert.
  destruct (Sql.select_cart_line d DEMO_USER pid) as [e|] eqn:He.
  - rewrite decide_True.
    + rewrite update_cart_qty_rows, <- list_fmap_compose. apply list_fmap_ext.
      intros i c _. unfold row_key. simpl.
      by rewrite set_row_qty_userId, set_row_qty_productId.
    + unfold Sql.select_cart_line in He.
      apply head_Some_elem_of, list_elem_of_filter in He as [[Hu Hp] He].
      apply list_elem_of_fmap. exists e. split; [|done].
      unfold row_key. by rewrite Hu, Hp.
  - rewrite decide_False; [cbn [db_cart]; by rewrite fmap_app|].
    intros (c & [= Hu Hp] & Hc)%list_elem_of_fmap.
    apply head_None in He.
    by apply (filter_nil_not_elem_of _ _ c He).
Qed.

(** X8: a valid upsert keeps the order of the cart: the sequence of
    (userId, productId) of the store is the same when the demo user had a
    line for the product, and has that pair added at its end when not. *)
Theorem upsert_keeps_order (s : server) (pid : string) (q : Q) :
  pid ≠ "" → (0 < q)%Q → known_product s pid →
  let s' := (handle s (POST_cart (CartRequest (Some pid) (JNum q)))).1 in
  line_key <$> lines s' =
    if decide ((DEMO_USER, pid) ∈ line_key <$> lines s) then line_key <$> lines s
    else (line_key <$> lines s) ++ [(DEMO_USER, pid)].
Proof.
  intros Hpid Hq Hk. cbn [handle]. unfold lines. destruct (useDb s) eqn:Hdb.
  - rewrite post_cart_durable by done. cbn [fst set_db useDb db]. rewrite Hdb.
    rewrite !line_key_of_row. apply db_upsert_row_keys.
  - rewrite post_cart_in_memory by done. cbn [fst set_mem_cart useDb mem mem_cart].
    rewrite Hdb. apply upsert_lines_keys.
Qed.

Lemma upsert_lines_rest pid q l :
  filter (λ c, ¬ (userId c = DEMO_USER ∧ productId c = pid)) (upsert_lines pid q l)
  = filter (λ c, ¬ (userId c = DEMO_USER ∧ productId c = pid)) l.
Proof.
  induction l as [|c l IH]; cbn [upsert_lines].
  - rewrite filter_cons_False, filter_nil; [done|]. simpl. tauto.
  - destruct (decide (userId c = DEMO_USER ∧ productId c = pid)) as [HP|HP].
    + rewrite !filter_cons_False; [done| |]; simpl; tauto.
    + by rewrite !filter_cons, IH.
Qed.


(** ** Invariants every route keeps *)

Lemma upsert_lines_Forall (P : cart_line → Prop) pid q l :
  (∀ u, P (CartLine u pid q)) → Forall P l → Forall P (upsert_lines pid q l).
Proof.
  intros Hnew. induction 1 as [|c l Hc Hl IH]; cbn [upsert_lines].
  - apply Forall_singleton, Hnew.
  - destruct (decide _) as [[_ ->]|_]; apply Forall_cons; auto.
Qed.

Lemma db_upsert_Forall (P : cart_row → Prop) d pid q :
  (∀ i u, P (CartRow i u pid q)) →
  (∀ c, P c → P (CartRow (row_id c) (row_userId c) (row_productId c) q)) →
  Forall P (db_cart d) → Forall P (db_cart (db_upsert d pid q)).
Proof.
  intros Hnew Hset Hall. unfold db_upsert.
  destruct (Sql.select_cart_line d DEMO_USER pid) as [e|].
  - rewrite update_cart_qty_rows. apply Forall_fmap.
    eapply Forall_impl; [exact Hall|].
    intros c Hc. simpl. unfold set_row_qty. destruct (decide _); auto.
  - cbn [db_cart]. apply Forall_app. split; [done|]. apply Forall_singleton, Hnew.
Qed.

(** X10: the quantities of the store stay above zero: if every line has a
    qty above zero before a request, every line has one after it. *)
Theorem quantities_stay_positive (s : server) (r : request) :
  quantities_positive s → quantities_positive (handle s r).1.
Proof.
  unfold quantities_positive. intros Hpos.
  destruct r as [|b|pid| |rnd now|]; cbn [handle fst]; try done.
  - destruct (post_cart_cases s b) as [Hsame _|pid q -> Hpid Hq Hk].
    + by rewrite Hsame.
    + unfold lines in *. destruct (useDb s) eqn:Hdb.
      * rewrite post_cart_durable by auto. cbn [fst set_db useDb db]. rewrite Hdb.
        apply Forall_line_of_row. apply Forall_line_of_row in Hpos.
        by apply db_upsert_Forall.
      * rewrite post_cart_in_memory by auto. cbn [fst set_mem_cart useDb mem mem_cart].
        rewrite Hdb. by apply upsert_lines_Forall.
  - unfold delete_cart, lines in *. cbn [fst]. destruct (useDb s) eqn:Hdb.
    + cbn [set_db useDb db Sql.delete_cart_line db_cart]. rewrite Hdb.
      apply Forall_line_of_row, Forall_filter_keep. by apply Forall_line_of_row in Hpos.
    + cbn [set_mem_cart useDb mem mem_cart]. rewrite Hdb.
      by apply Forall_filter_keep.
  - unfold post_checkout, lines in *. cbn [fst]. destruct (useDb s) eqn:Hdb.
    + cbn [set_db useDb db Sql.delete_cart_user db_cart]. rewrite Hdb.
      apply Forall_line_of_row, Forall_filter_keep. by apply Forall_line_of_row in Hpos.
    + cbn [set_mem_cart useDb mem mem_cart]. rewrite Hdb.
      by apply Forall_filter_keep.
Qed.

(** X11: the table [cart] keeps its foreign key: if every row names a
    product of the table [products] before a request, every row does after
    it. *)
Theorem foreign_key_preserved (s : server) (r : request) :
  foreign_key s → foreign_key (handle s r).1.
Proof.
  unfold foreign_key. intros Hfk.
  destruct r as [|b|pid| |rnd now|]; cbn [handle fst]; try done.
  - destruct (post_cart_cases s b) as [Hsame _|pid q -> Hpid Hq Hk].
    + by rewrite Hsame.
    + destruct (useDb s) eqn:Hdb.
      * rewrite post_cart_durable by auto. cbn [fst set_db db].
        rewrite db_upsert_products. apply db_upsert_foreign_key; [|done].
        specialize (Hk eq_refl). unfold known_product, catalog in Hk.
        by rewrite Hdb in Hk.
      * by rewrite post_cart_in_memory by auto.
  - unfold delete_cart. cbn [fst]. destruct (useDb s); [|done].
    cbn [set_db db Sql.delete_cart_line db_cart db_products].
    by apply Forall_filter_keep.
  - unfold post_checkout. cbn [fst]. destruct (useDb s); [|done].
    cbn [set_db db Sql.delete_cart_user db_cart db_products].
    by apply Forall_filter_keep.
Qed.

Lemma foldr_max_bounded (z : Z) (l : list Z) :
  Forall (λ x, x ≤ z) l → foldr Z.max z l = z.
Proof.
  induction 1 as [|x l Hx _ IH]; [done|]. cbn [foldr]. rewrite IH. lia.
Qed.

Lemma next_rowid_above_seq d : db_cart_seq d < Sql.next_rowid d.
Proof.
  unfold Sql.next_rowid. generalize (db_cart_seq d). intros z.
  induction (row_id <$> db_cart d) as [|x l IH]; cbn [foldr]; lia.
Qed.

(** X12: a rowid is never handed out twice: the counter of
    [AUTOINCREMENT] never goes down, it stays at or above every rowid of the
    table, and a row that a request leaves with a rowid at or below the old
    counter carries the rowid of a row that was there before. *)
Theorem rowids_never_reused (s : server) (r : request) :
  rowids_bounded s →
  let s' := (handle s r).1 in
  rowids_bounded s' ∧
  db_cart_seq (db s) ≤ db_cart_seq (db s') ∧
  (∀ c, c ∈ db_cart (db s') → row_id c ≤ db_cart_seq (db s) →
        row_id c ∈ row_id <$> db_cart (db s)).
Proof.
  unfold rowids_bounded. intros Hb. cbn zeta.
  assert (∀ (P : cart_row → Prop) `{∀ c, Decision (P c)},
            Forall (λ c, row_id c ≤ db_cart_seq (db s)) (filter P (db_cart (db s))) ∧
            db_cart_seq (db s) ≤ db_cart_seq (db s) ∧
            (∀ c, c ∈ filter P (db_cart (db s)) → row_id c ≤ db_cart_seq (db s) →
                  row_id c ∈ row_id <$> db_cart (db s))) as Hfilter.
  { intros P HP. split_and!; [by apply Forall_filter_keep|done|].
    intros c [_ Hc]%list_elem_of_filter _. by apply list_elem_of_fmap_2. }
  assert (Forall (λ c, row_id c ≤ db_cart_seq (db s)) (db_cart (db s)) ∧
          db_cart_seq (db s) ≤ db_cart_seq (db s) ∧
          (∀ c, c ∈ db_cart (db s) → row_id c ≤ db_cart_seq (db s) →
                row_id c ∈ row_id <$> db_cart (db s))) as Hsame.
  { split_and!; [done..|]. intros c Hc _. by apply list_elem_of_fmap_2. }
  destruct r as [|b|pid| |rnd now|]; cbn [handle fst]; try done.
  - destruct (post_cart_cases s b) as [Heq _|pid q -> Hpid Hq Hk].
    + by rewrite Heq.
    + destruct (useDb s) eqn:Hdb.
      2: { by rewrite post_cart_in_memory by auto. }
      rewrite post_cart_durable by auto. cbn [fst set_db db]. unfold db_upsert.
      destruct (Sql.select_cart_line (db s) DEMO_USER pid) as [e|].
      * rewrite update_cart_qty_rows. cbn [Sql.update_cart_qty db_cart_seq].
        split_and!; [|done|].
        -- apply Forall_fmap. eapply Forall_impl; [exact Hb|].
           intros c Hc. simpl. by rewrite set_row_qty_id.
        -- intros c (c0 & -> & Hc0)%list_elem_of_fmap _.
           rewrite set_row_qty_id. by apply list_elem_of_fmap_2.
      * cbn [db_cart db_cart_seq].
        pose proof (next_rowid_above_seq (db s)) as Hnext.
        split_and!; [|lia|].
        -- apply Forall_app. split; [|by apply Forall_singleton].
           eapply Forall_impl; [exact Hb|]. intros c Hc. simpl in *. lia.
        -- intros c [Hc|Hc]%elem_of_app Hle; [by apply list_elem_of_fmap_2|].
           apply list_elem_of_singleton in Hc. subst c. simpl in Hle. lia.
  - unfold delete_cart. cbn [fst]. destruct (useDb s); [|done].
    cbn [set_db db Sql.delete_cart_line db_cart db_cart_seq]. apply Hfilter.
  - unfold post_checkout. cbn [fst]. destruct (useDb s); [|done].
    cbn [set_db db Sql.delete_cart_user db_cart db_cart_seq]. apply Hfilter.
Qed.

(** ** The view, line by line *)


(** ** The client *)

Lemma ok_200 r : status r = 200 → ok r = true.
Proof. intros H. unfold ok. by rewrite H. Qed.

Lemma not_ok_400_404 r : status r = 400 ∨ status r = 404 → ok r = false.
Proof. intros [H|H]; unfold ok; by rewrite H. Qed.

(** The three routes that answer with a cart: either 200 with the view of
    the state they leave, or a failure that leaves the state. *)
Lemma cart_route_response s req :
  req = GET_cart ∨ (∃ b, req = POST_cart b) ∨ (∃ pid, req = DELETE_cart pid) →
  (ok (handle s req).2 = true ∧
   (handle s req).2 = res_json (JsonCart (cart_view_of (handle s req).1))) ∨
  (ok (handle s req).2 = false ∧ (handle s req).1 = s).
Proof.
  intros [->|[[b ->]|[pid ->]]]; [by left| |by left].
  cbn [handle]. destruct (post_cart_cases s b) as [Hsame Hno|pid q -> Hpid Hq Hk].
  - right. split; [|done]. apply not_ok_400_404.
    destruct (post_cart_status s b) as [?|[?|[_ ?]]]; [done|by left|by right].
  - left. destruct (useDb s) eqn:Hdb.
    + by rewrite post_cart_durable by auto.
    + by rewrite post_cart_in_memory by auto.
Qed.

Lemma set_cart_in_sync s c req :
  req = GET_cart ∨ (∃ b, req = POST_cart b) ∨ (∃ pid, req = DELETE_cart pid) →
  in_sync s c →
  in_sync (handle s req).1 (set_cart c (handle s req).2).
Proof.
  intros Hreq Hsync. unfold in_sync, set_cart in *.
  destruct (cart_route_response s req Hreq) as [[-> ->]|[-> ->]]; done.
Qed.

(** X14: the cart the client shows follows the server: if it is the
    server's view before a refresh, an add, a change of quantity or a
    removal, it is the server's view after it, whether the server accepted
    the request or refused it. *)
Theorem client_stays_in_sync (s : server) (c : client) (a : action) :
  in_sync s c → (∀ rnd now, a ≠ Checkout rnd now) →
  in_sync (act s c a).1 (act s c a).2.
Proof.
  intros Hsync Hno. destruct a as [|id|id qty|id|rnd now]; cbn [act].
  - by apply (set_cart_in_sync s c GET_cart); [left|].
  - set (b := CartRequest (Some id) _).
    destruct (handle s (POST_cart b)) as [s' r] eqn:Hh. cbn [fst snd].
    replace s' with (handle s (POST_cart b)).1 by by rewrite Hh.
    replace r with (handle s (POST_cart b)).2 by by rewrite Hh.
    apply set_cart_in_sync; [right; left; eauto|done].
  - destruct (handle s (POST_cart _)) as [s' r] eqn:Hh. cbn [fst snd].
    replace s' with (handle s (POST_cart (CartRequest id (JNum qty)))).1
      by by rewrite Hh.
    replace r with (handle s (POST_cart (CartRequest id (JNum qty)))).2
      by by rewrite Hh.
    apply set_cart_in_sync; [right; left; eauto|done].
  - by apply (set_cart_in_sync s c (DELETE_cart (path_id id))); [right; right; eauto|].
  - by destruct (Hno rnd now).
Qed.

(** X15: a checkout fills in the receipt, with the items and the total of
    the server's view before it, and opens it, but leaves the cart the
    client shows as it was, while the server's view is empty afterwards: a
    client that was showing the server's view still shows it after the
    checkout only if the cart was empty. *)
Theorem checkout_leaves_shown_cart (s : server) (c : client) (rnd now : string) :
  let s' := (act s c (Checkout rnd now)).1 in
  let c' := (act s c (Checkout rnd now)).2 in
  client_cart c' = client_cart c ∧
  client_receipt c'
  = Some (Receipt ("rcpt_" +:+ rnd) (total (cart_view_of s)) (items (cart_view_of s)) now) ∧
  client_showReceipt c' = true ∧
  cart_view_of s' = CartView [] (Num 0) ∧
  (in_sync s c → (in_sync s' c' ↔ cart_view_of s = CartView [] (Num 0))).
Proof.
  cbn [act handle]. pose proof (checkout_clears s rnd now) as Hclear.
  cbn [handle] in Hclear.
  destruct (post_checkout s rnd now) as [s' r] eqn:Hh.
  assert (r = (post_checkout s rnd now).2) as -> by by rewrite Hh.
  rewrite post_checkout_view. cbn [fst snd] in *.
  assert (cart_view_of s' = CartView [] (Num 0)) as Hempty by by apply empty_cart_view.
  split_and!; [done..|].
  unfold in_sync. cbn [ok res_json status body client_cart]. simpl.
  intros ->. rewrite Hempty. done.
Qed.







(** X17: the number input never sends a qty the validation refuses:
    [Math.max(1, ...)] gives a number of at least 1, so the change of
    quantity of an item that has an id is never answered 400. *)
Theorem clamped_qty_is_accepted (value : option Q) (s : server) (id : string) :
  id ≠ "" →
  (1 <= clamp_qty value)%Q ∧
  status (handle s (POST_cart (CartRequest (Some id) (JNum (clamp_qty value))))).2 ≠ 400.
Proof.
  intros Hid.
  assert (1 <= clamp_qty value)%Q as Hge.
  { unfold clamp_qty. cbn zeta.
    destruct (Qle_bool 1 _) eqn:E; [by apply Qle_bool_iff|apply Qle_refl]. }
  split; [done|]. cbn [handle].
  assert (0 < clamp_qty value)%Q as Hq.
  { apply Qlt_le_trans with 1%Q; [reflexivity|done]. }
  destruct (useDb s) eqn:Hdb.
  - destruct (decide (known_product s id)).
    + by rewrite post_cart_durable.
    + by rewrite post_cart_durable_unknown.
  - by rewrite post_cart_in_memory.
Qed.

Lemma serve_keeps_catalog rs : ∀ s,
  useDb (serve s rs).1 = useDb s ∧ catalog (serve s rs).1 = catalog s.
Proof.
  induction rs as [|r rs IH]; intros s; [done|].
  cbn [serve]. pose proof (backend_frame_step s r) as (Hu & Hd & Hm & _).
  destruct (handle s r) as [s1 out]. cbn [fst] in *.
  specialize (IH s1). destruct (serve s1 rs) as [s2 outs]. cbn [fst] in *.
  destruct IH as [Hu' Hc']. split; [congruence|].
  rewrite Hc'. unfold catalog. by rewrite Hu, Hd, Hm.
Qed.

(** X18: whichever way start-up went, on a file without products or on a
    file that cannot be opened, GET /api/products answers 200 with the
    seven seeded products in their order, at any point of any run. *)
Theorem products_are_the_seed (file : option database) (rs : list request) :
  match file with Some d => db_products d = [] | None => True end →
  (handle (serve (initDb file) rs).1 GET_products).2 = res_json (JsonProducts seed).
Proof.
  intros Hfile. cbn [handle snd].
  assert (get_products (serve (initDb file) rs).1
          = res_json (JsonProducts (catalog (serve (initDb file) rs).1))) as ->.
  { unfold get_products, catalog. by destruct (useDb _). }
  destruct (serve_keeps_catalog rs (initDb file)) as [_ ->].
  destruct file as [d|]; [|done].
  by rewrite initDb_empty_catalog.
Qed.

(** ** The theorems above at concrete inputs *)

Lemma failed_request_changes_nothing_witness :
  status (handle two_users zzz_once).2 ≠ 200 ∧
  (handle two_users zzz_once).1 = two_users.
Proof.
  assert (status (handle two_users zzz_once).2 ≠ 200) as H1.
  { vm_compute. discriminate. }
  split; [exact H1|].
  exact (failed_request_changes_nothing two_users zzz_once H1).
Defined.

Lemma upsert_keeps_order_witness :
  "p2" ≠ "" ∧ (0 < 2)%Q ∧ known_product two_users "p2" ∧
  line_key <$> lines (handle two_users p2_twice).1
  = [("demo", "p1"); ("alice", "p1"); ("demo", "p2")].
Proof.
  assert ("p2" ≠ "") as H1 by discriminate.
  assert (0 < 2)%Q as H2 by reflexivity.
  assert (known_product two_users "p2") as H3.
  { apply (bool_decide_unpack _). vm_compute. exact I. }
  split_and!; [exact H1|exact H2|exact H3|].
  etrans; [exact (upsert_keeps_order two_users "p2" 2 H1 H2 H3)|].
  vm_compute. reflexivity.
Defined.


Lemma quantities_stay_positive_witness :
  quantities_positive two_users ∧
  quantities_positive (handle two_users p2_twice).1.
Proof.
  assert (quantities_positive two_users) as H1.
  { unfold quantities_positive, lines. simpl. repeat constructor. }
  split; [exact H1|].
  exact (quantities_stay_positive two_users p2_twice H1).
Defined.

Lemma foreign_key_preserved_witness :
  foreign_key two_users ∧ foreign_key (handle two_users p2_twice).1.
Proof.
  assert (foreign_key two_users) as H1.
  { apply (bool_decide_unpack _). vm_compute. exact I. }
  split; [exact H1|].
  exact (foreign_key_preserved two_users p2_twice H1).
Defined.

Lemma rowids_never_reused_witness :
  rowids_bounded two_users ∧
  db_cart_seq (db two_users) ≤ db_cart_seq (db (handle two_users p2_twice).1).
Proof.
  assert (rowids_bounded two_users) as H1.
  { apply (bool_decide_unpack _). vm_compute. exact I. }
  split; [exact H1|].
  exact (proj1 (proj2 (rowids_never_reused two_users p2_twice H1))).
Defined.


Lemma client_stays_in_sync_witness :
  in_sync two_users two_users_client ∧
  in_sync (act two_users two_users_client (Remove (Some "p1"))).1
          (act two_users two_users_client (Remove (Some "p1"))).2.
Proof.
  assert (in_sync two_users two_users_client) as H1 by reflexivity.
  split; [exact H1|].
  apply (client_stays_in_sync two_users two_users_client (Remove (Some "p1")) H1).
  intros rnd now. discriminate.
Defined.


Lemma clamped_qty_is_accepted_witness :
  "p1" ≠ "" ∧
  status (handle two_users
            (POST_cart (CartRequest (Some "p1") (JNum (clamp_qty (Some 0%Q)))))).2 ≠ 400.
Proof.
  assert ("p1" ≠ "") as H1 by discriminate.
  split; [exact H1|].
  exact (proj2 (clamped_qty_is_accepted (Some 0%Q) two_users "p1" H1)).
Defined.

Lemma products_are_the_seed_witness :
  db_products (Database [] [] 0) = [] ∧
  (handle (serve (initDb (Some (Database [] [] 0))) [p1_once; zzz_once]).1 GET_products).2
  = res_json (JsonProducts seed).
Proof.
  assert (db_products (Database [] [] 0) = []) as H1 by reflexivity.
  split; [exact H1|].
  exact (products_are_the_seed (Some (Database [] [] 0)) [p1_once; zzz_once] H1).
Defined.


Lemma primary_key_preserved_witness :
  primary_key two_users ∧ primary_key (handle two_users p2_twice).1.
Proof.
  assert (primary_key two_users) as H1.
  { apply (bool_decide_unpack _). vm_compute. exact I. }
  split; [exact H1|].
  exact (primary_key_preserved two_users p2_twice H1).
Defined.

Lemma durable_view_drops_orphans_witness :
  useDb orphan_row = true ∧
  items (cart_view_of orphan_row)
  = [Item (Some "p1") (Some "Bluetooth Headphones") (Some 1999%Q) (Some "🎧") 1].
Proof.
  assert (useDb orphan_row = true) as H1 by reflexivity.
  split; [exact H1|].
  rewrite (durable_view_drops_orphans orphan_row H1).
  vm_compute. reflexivity.
Defined.

Lemma durable_unknown_product_404_witness :
  useDb two_users = true ∧ "zzz" ≠ "" ∧ (0 < 1)%Q ∧ ¬ known_product two_users "zzz" ∧
  handle two_users zzz_once
  = (two_users, res_status_json 404 (JsonError "Product not found")).
Proof.
  assert (useDb two_users = true) as H1 by reflexivity.
  assert ("zzz" ≠ "") as H2 by discriminate.
  assert (0 < 1)%Q as H3 by reflexivity.
  assert (¬ known_product two_users "zzz") as H4.
  { apply (bool_decide_eq_false_1 (known_product _ _)). vm_compute. reflexivity. }
  split_and!; [exact H1|exact H2|exact H3|exact H4|].
  exact (durable_unknown_product_404 two_users "zzz" 1 H1 H2 H3 H4).
Defined.

(** ** More on checkout and on add-then-remove *)

(** X23: the total of a receipt.  The checkout sums price × qty over the
    items it puts on the receipt, in doubles and in the order of the items:
    the total is that sum when prices and quantities are whole numbers,
    none below zero, and the sum is at most 2^53; it is NaN when an item has
    no price. *)
Theorem receipt_total_is_sum (s : server) (rnd now : string) :
  ∃ rc, (handle s (POST_checkout rnd now)).2 = res_json (JsonReceipt rc) ∧
        (∀ t, Forall whole_item (receipt_items rc) →
              sum_price_qty (receipt_items rc) = Some t →
              (t <= inject_Z (2 ^ 53))%Q →
              receipt_total rc = Num t) ∧
        (sum_price_qty (receipt_items rc) = None → receipt_total rc = NaN).
Proof.
  cbn [handle]. unfold post_checkout. cbn [snd total items].
  eexists. split; [reflexivity|]. cbn [receipt_total receipt_items].
  split.
  - intros t Hwhole Hsum Hle. by apply reduce_total_whole.
  - intros Hnone. by apply reduce_no_price.
Qed.

(** X24: adding a product the demo user has no line for and removing it
    again gives the lines back as they were, in both stores, and with them
    the view; the durable store keeps only the higher counter of
    [AUTOINCREMENT]. *)
Theorem upsert_then_remove_restores (s : server) (pid : string) (q : Q) :
  pid ≠ "" → (0 < q)%Q → known_product s pid →
  Forall (λ c, productId c ≠ pid) (get s DEMO_USER) →
  let s1 := (handle s (POST_cart (CartRequest (Some pid) (JNum q)))).1 in
  let s2 := (handle s1 (DELETE_cart pid)).1 in
  lines s2 = lines s ∧
  cart_view_of s2 = cart_view_of s ∧
  (if useDb s then db_cart (db s2) = db_cart (db s) else s2 = s).
Proof.
  intros Hpid Hq Hk Habs. cbn [handle].
  assert (Forall (λ c, ¬ (userId c = DEMO_USER ∧ productId c = pid)) (lines s)) as Hl.
  { apply Forall_forall. intros c Hc [Hcu Hcp].
    rewrite Forall_forall in Habs. apply (Habs c); [|done].
    unfold get. by apply list_elem_of_filter. }
  unfold lines in *. destruct (useDb s) eqn:Hdb.
  - rewrite post_cart_durable by done. unfold delete_cart.
    cbn [fst set_db useDb db]. rewrite Hdb. cbn [set_db useDb db].
    apply Forall_line_of_row in Hl.
    assert (db_cart (Sql.delete_cart_line (db_upsert (db s) pid q) DEMO_USER pid)
            = db_cart (db s)) as Hrows.
    { unfold Sql.delete_cart_line, db_upsert. cbn [db_cart].
      assert (filter (λ c, row_userId c = DEMO_USER ∧ row_productId c = pid)
                     (db_cart (db s)) = []) as Hnone.
      { apply filter_none. eapply Forall_impl; [exact Hl|]. by intros c Hc. }
      unfold Sql.select_cart_line. rewrite Hnone. cbn [head db_cart].
      rewrite filter_app, filter_cons_False, filter_nil, app_nil_r by (simpl; tauto).
      apply filter_all. eapply Forall_impl; [exact Hl|]. by intros c Hc. }
    assert (db_products (Sql.delete_cart_line (db_upsert (db s) pid q) DEMO_USER pid)
            = db_products (db s)) as Hps.
    { unfold Sql.delete_cart_line. cbn [db_products]. apply db_upsert_products. }
    split_and!; [by rewrite Hdb, Hrows| |done].
    unfold cart_view_of, Sql.select_cart_join. cbn [set_db useDb db].
    by rewrite Hdb, Hrows, Hps.
  - rewrite post_cart_in_memory by done. unfold delete_cart.
    cbn [fst set_mem_cart useDb mem mem_cart mem_products db]. rewrite Hdb.
    rewrite upsert_lines_rest, filter_all by done.
    assert (set_mem_cart (set_mem_cart s (upsert_lines pid q (mem_cart (mem s))))
              (mem_cart (mem s)) = s) as Hs.
    { by destruct s as [u d [ps l]]. }
    cbn [set_mem_cart useDb mem mem_cart mem_products db] in Hs.
    rewrite Hs. by rewrite Hdb.
Qed.

Lemma upsert_then_remove_restores_witness :
  "p2" ≠ "" ∧ (0 < 2)%Q ∧ known_product two_users "p2" ∧
  Forall (λ c, productId c ≠ "p2") (get two_users DEMO_USER) ∧
  lines (handle (handle two_users p2_twice).1 (DELETE_cart "p2")).1 = lines two_users.
Proof.
  assert ("p2" ≠ "") as H1 by discriminate.
  assert (0 < 2)%Q as H2 by reflexivity.
  assert (known_product two_users "p2") as H3.
  { apply (bool_decide_unpack _). vm_compute. exact I. }
  assert (Forall (λ c, productId c ≠ "p2") (get two_users DEMO_USER)) as H4.
  { apply (bool_decide_unpack _). vm_compute. exact I. }
  split_and!; [exact H1|exact H2|exact H3|exact H4|].
  exact (proj1 (upsert_then_remove_restores two_users "p2" 2 H1 H2 H3 H4)).
Defined.

Lemma status_is_200_400_or_404_witness :
  useDb durable_start = true ∧ "p1" ≠ "" ∧ (0 < 2)%Q ∧ (0 < 1)%Q ∧
  plan_upsert (db durable_start) "p1" = InsertRow ∧
  get (handle durable_start p1_once).1 DEMO_USER = [CartLine DEMO_USER "p1" 1] ∧
  run_upsert (handle durable_start p1_once).1 InsertRow "p1" 2
  = ((handle durable_start p1_once).1,
     res_status_json 500 (JsonError "Failed to update cart")).
Proof.
  assert (useDb durable_start = true) as H1 by reflexivity.
  assert ("p1" ≠ "") as H2 by discriminate.
  assert (0 < 2)%Q as H3 by reflexivity.
  assert (0 < 1)%Q as H4 by reflexivity.
  assert (plan_upsert (db durable_start) "p1" = InsertRow) as H5.
  { vm_compute. reflexivity. }
  split_and!; [exact H1|exact H2|exact H3|exact H4|exact H5|vm_compute; reflexivity|].
  exact (proj2 (proj2 (proj2 status_is_200_400_or_404) durable_start "p1" 2%Q 1%Q
                  H1 H2 H3 H4 H5)).
Defined.

Lemma bad_request_iff_witness :
  JBool false ≠ json_of_id None ∧
  JStr "" = json_of_id (Some "") ∧
  status (handle durable_start (POST_cart (CartRequest (Some "") (JNum 1)))).2 = 400.
Proof.
  assert (JStr "" = json_of_id (Some "")) as H1 by reflexivity.
  split_and!; [discriminate|exact H1|].
  apply (proj2 (bad_request_iff durable_start (JStr "") (JNum 1)) (Some "") H1).
  reflexivity.
Defined.

Lemma receipt_total_is_sum_witness :
  let s := (serve in_memory_start [p2_twice; p1_once]).1 in
  ∃ rc, (handle s (POST_checkout "k3x9q0" "2025-01-01T00:00:00.000Z")).2
        = res_json (JsonReceipt rc) ∧
        Forall whole_item (receipt_items rc) ∧
        sum_price_qty (receipt_items rc) = Some 3397%Q ∧
        (3397 <= inject_Z (2 ^ 53))%Q ∧
        receipt_total rc = Num 3397.
Proof.
  intros s.
  destruct (receipt_total_is_sum s "k3x9q0" "2025-01-01T00:00:00.000Z")
    as (rc & Hrc & Hwhole & _).
  assert (receipt_items rc
          = [Item (Some "p2") (Some "Wireless Mouse") (Some 699%Q) (Some "🖱️") 2;
             Item (Some "p1") (Some "Bluetooth Headphones") (Some 1999%Q) (Some "🎧") 1])
    as Hit.
  { vm_compute in Hrc. by injection Hrc as <-. }
  assert (Forall whole_item (receipt_items rc)) as H1.
  { rewrite Hit. repeat apply Forall_cons_2; [| |apply Forall_nil_2].
    - exists 699, 2. split_and!; [lia|lia|reflexivity|reflexivity].
    - exists 1999, 1. split_and!; [lia|lia|reflexivity|reflexivity]. }
  assert (sum_price_qty (receipt_items rc) = Some 3397%Q) as H2.
  { rewrite Hit. vm_compute. reflexivity. }
  assert (3397 <= inject_Z (2 ^ 53))%Q as H3.
  { vm_compute. discriminate. }
  exists rc. split_and!; [exact Hrc|exact H1|exact H2|exact H3|].
  exact (Hwhole 3397%Q H1 H2 H3).
Defined.
